(** * ARR-MCP: the tool registry, the parameter validator and the HTTP handlers

    A shallow embedding of the Go packages [arr-mcp/pkg/api] (types.go: the
    protocol types and [BasicToolRegistry]) and [arr-mcp/pkg/server]
    ([MCPServer] and its HTTP handlers), followed by the properties the
    specification states about them.

    Conventions of the embedding:
    - a Go [map[string]T] is a [gmap string T]; a nil map reads as the empty
      map, so both are [∅];
    - an [interface{}] holding decoded JSON is a [Value];
    - a Go [error] is an [option string]: [None] is [nil], [Some msg] is an
      error whose [Error()] text is [msg];
    - what the Go language leaves to the implementation (the order in which
      [range] visits a map, the result of an out-of-range float-to-int
      conversion) is a field of [Runtime], and every property is proved for
      every runtime;
    - logging is left out: the logger only writes to its own sink. *)

From Stdlib Require Import ZArith Lia DecimalString.
From stdpp Require Import gmap strings list fin_maps.

Set Warnings "-register-all,-clear-no-such-hyp".
Local Open Scope Z_scope.

(* ===================================================================== *)
(** ** Go values *)
(* ===================================================================== *)

(** A finite [float64]: the number [mant * 2^expo].  JSON decoding never
    produces NaN or an infinity, and [-0 == 0] in Go, so a pair of integers
    compared by value is enough.  [float64_wf] says the pair is an IEEE 754
    binary64 number (53 bits of mantissa, exponent between -1074 and 971). *)
Record float64 := Float64 { mant : Z; expo : Z }.

Definition float64_wf (x : float64) : bool :=
  (Z.abs (mant x) <? 2 ^ 53) && (-1074 <=? expo x) && (expo x <=? 971).

(** Go's [x == y] on float64. *)
Definition float64_eqb (x y : float64) : bool :=
  let e := Z.min (expo x) (expo y) in
  mant x * 2 ^ (expo x - e) =? mant y * 2 ^ (expo y - e).

(** The number has a zero fractional part. *)
Definition float64_integral (x : float64) : bool :=
  (0 <=? expo x) || (mant x mod 2 ^ (- expo x) =? 0).

(** The integral part of the number, rounding toward zero. *)
Definition float64_trunc (x : float64) : Z :=
  if 0 <=? expo x then mant x * 2 ^ expo x
  else Z.quot (mant x) (2 ^ (- expo x)).

(** Go's [int] is taken to be 64 bits wide, as on every 64-bit target. *)
Definition min_int : Z := - 2 ^ 63.
Definition max_int : Z := 2 ^ 63 - 1.
Definition in_int (n : Z) : bool := (min_int <=? n) && (n <=? max_int).

(** An [interface{}] value as [encoding/json] decodes it, which is also the
    shape of the schema literals the tools are registered with. *)
Inductive Value :=
| VNil
| VBool (b : bool)
| VNumber (x : float64)
| VString (s : string)
| VArray (l : list Value)
| VObject (m : gmap string Value).

(** Type assertions [v.(T)] in their comma-ok form. *)
Definition as_bool (v : Value) : option bool :=
  match v with VBool b => Some b | _ => None end.
Definition as_float64 (v : Value) : option float64 :=
  match v with VNumber x => Some x | _ => None end.
Definition as_string (v : Value) : option string :=
  match v with VString s => Some s | _ => None end.
Definition as_array (v : Value) : option (list Value) :=
  match v with VArray l => Some l | _ => None end.
Definition as_object (v : Value) : option (gmap string Value) :=
  match v with VObject m => Some m | _ => None end.

(** What Go leaves open.  [range_order m] is the sequence in which one
    [for k, v := range m] visits the entries of [m]: every entry once, in an
    order the language does not specify.  [int_overflow x] is the result of
    [int(x)] when the integral part of [x] does not fit in an [int]: the
    conversion succeeds with an implementation-dependent [int]. *)
Record Runtime := {
  range_order : ∀ A : Type, gmap string A → list (string * A);
  range_order_perm :
    ∀ (A : Type) (m : gmap string A), range_order A m ≡ₚ map_to_list m;
  int_overflow : float64 → Z;
  int_overflow_int : ∀ x, in_int (int_overflow x) = true }.
Arguments range_order _ {_} _.

(** [int(x)] for a float64 [x]. *)
Definition int_of_float64 (rt : Runtime) (x : float64) : Z :=
  let n := float64_trunc x in
  if in_int n then n else int_overflow rt x.

(** [float64(n)] for an int [n]: the nearest float64, ties to the even
    mantissa.  [n] is exact when it has at most 53 significant bits;
    otherwise the low [sh] bits are rounded away. *)
Definition float64_of_int (n : Z) : float64 :=
  let a := Z.abs n in
  let bits := Z.log2 a + 1 in
  if bits <=? 53 then Float64 n 0
  else
    let sh := bits - 53 in
    let q := Z.shiftr a sh in
    let r := a mod 2 ^ sh in
    let half := 2 ^ (sh - 1) in
    let q' := if (half <? r) || ((r =? half) && Z.odd q) then q + 1 else q in
    Float64 (Z.sgn n * q') sh.

(* ===================================================================== *)
(** ** Package api: protocol types and the tool registry *)
(* ===================================================================== *)

Module api.

Record MCPRequest := {
  Input : gmap string Value;
  ToolName : string;
  RequestID : string;
  Timeout : Z;
  AccessToken : string }.

(** The three response envelopes; [Type] is fixed by the constructor
    ("final", "partial", "error"). *)
Record MCPFinalResponse := { Result : Value }.
Record MCPPartialResponse := { Content : Value; Done : bool }.
Record MCPErrorResponse := { Message : string; Code : string }.

Record ToolDefinition := {
  Name : string;
  Description : string;
  Parameters : gmap string Value }.

(** The zero value of [ToolDefinition]. *)
Definition ToolDefinition_zero : ToolDefinition :=
  {| Name := ""; Description := ""; Parameters := ∅ |}.

(** What a call of [HandleRequest] hands back: the two results of the Go
    method, and the wall-clock time in milliseconds the call blocked its
    caller for. *)
Record Return := { result : Value; err : option string; millis : Z }.

(** interface Handler *)
Record Handler := { HandleRequest : MCPRequest → Return }.

(** BasicToolRegistry: the [tools] map. *)
Record BasicToolRegistry := { tools : gmap string ToolDefinition }.

Definition NewBasicToolRegistry : BasicToolRegistry := {| tools := ∅ |}.

Definition RegisterTool (tool : ToolDefinition) (r : BasicToolRegistry)
  : BasicToolRegistry :=
  {| tools := <[Name tool := tool]> (tools r) |}.

Definition GetTool (r : BasicToolRegistry) (name : string)
  : ToolDefinition * bool :=
  match tools r !! name with
  | Some tool => (tool, true)
  | None => (ToolDefinition_zero, false)
  end.

Definition ListTools (rt : Runtime) (r : BasicToolRegistry)
  : list ToolDefinition :=
  foldl (λ tools kv, tools ++ [kv.2]) [] (range_order rt (tools r)).

End api.

(* ===================================================================== *)
(** ** Package net/http: what the handlers use of it *)
(* ===================================================================== *)

Module http.

Definition MethodGet : string := "GET".
Definition MethodPost : string := "POST".

Definition StatusOK : Z := 200.
Definition StatusBadRequest : Z := 400.
Definition StatusMethodNotAllowed : Z := 405.
Definition StatusInternalServerError : Z := 500.
Definition StatusServiceUnavailable : Z := 503.

(** A JSON document written to the response body by
    [json.NewEncoder(w).Encode]. *)
Inductive Document :=
| DFinal (r : api.MCPFinalResponse)
| DPartial (r : api.MCPPartialResponse)
| DError (r : api.MCPErrorResponse)
| DStatus (status : string)
| DTools (tools : list api.ToolDefinition)
| DServiceHealth (status : string) (services : gmap string string).

(** A response being written: the header map, the status code once the
    header has been sent, the documents written so far (oldest first),
    whether the writer also implements [http.Flusher], and how often it
    was flushed. *)
Record ResponseWriter := {
  Header : gmap string string;
  Code : option Z;
  Written : list Document;
  IsFlusher : bool;
  Flushed : nat }.

(** A writer nothing has been written to. *)
Definition NewWriter (flusher : bool) : ResponseWriter :=
  {| Header := ∅; Code := None; Written := []; IsFlusher := flusher;
     Flushed := 0 |}.

(** [w.Header().Set(key, value)] *)
Definition Header_Set (key value : string) (w : ResponseWriter)
  : ResponseWriter :=
  {| Header := <[key := value]> (Header w); Code := Code w;
     Written := Written w; IsFlusher := IsFlusher w; Flushed := Flushed w |}.

(** [w.WriteHeader(statusCode)]: only the first call sends a status. *)
Definition WriteHeader (statusCode : Z) (w : ResponseWriter)
  : ResponseWriter :=
  {| Header := Header w;
     Code := match Code w with Some c => Some c | None => Some statusCode end;
     Written := Written w; IsFlusher := IsFlusher w; Flushed := Flushed w |}.

(** [json.NewEncoder(w).Encode(doc)]: the first write sends status 200
    when no header was sent before. *)
Definition Encode (doc : Document) (w : ResponseWriter) : ResponseWriter :=
  let w := WriteHeader StatusOK w in
  {| Header := Header w; Code := Code w; Written := Written w ++ [doc];
     IsFlusher := IsFlusher w; Flushed := Flushed w |}.

(** [flusher.Flush()] *)
Definition Flush (w : ResponseWriter) : ResponseWriter :=
  {| Header := Header w; Code := Code w; Written := Written w;
     IsFlusher := IsFlusher w; Flushed := S (Flushed w) |}.

(** A [context.Context]: its deadline, in milliseconds of the clock. *)
Record Context := { Deadline : option Z }.

(** [context.WithTimeout(ctx, d)] at time [now]. *)
Definition WithTimeout (ctx : Context) (now d : Z) : Context :=
  {| Deadline := Some (match Deadline ctx with
                       | Some t => Z.min t (now + d)
                       | None => now + d
                       end) |}.

(** The body of a request, as [io.ReadAll] followed by [json.Unmarshal]
    into an [api.MCPRequest] sees it. *)
Inductive RequestBody :=
| BodyUnreadable
| BodyMalformed
| BodyJSON (mcpRequest : api.MCPRequest).

Record Request := {
  Method : string;
  Body : RequestBody;
  Ctx : Context }.

End http.

(* ===================================================================== *)
(** ** Package server *)
(* ===================================================================== *)

Module server.

(** interface ServiceChecker: the name, and what this [Check()] returns. *)
Record ServiceChecker := { Check : option string; Name : string }.

Record MCPServer := {
  registry : api.BasicToolRegistry;
  handlers : gmap string api.Handler;
  serviceCheckers : list ServiceChecker }.

(** What serving one request does besides writing the response: the
    handler calls made (oldest first), the checkers probed (oldest
    first), and the clock, in milliseconds. *)
Record Exchange := {
  Writer : http.ResponseWriter;
  Invoked : list (api.Handler * api.MCPRequest);
  Probed : list ServiceChecker;
  Clock : Z }.

Definition Start_exchange (w : http.ResponseWriter) (now : Z) : Exchange :=
  {| Writer := w; Invoked := []; Probed := []; Clock := now |}.

Definition on_writer (f : http.ResponseWriter → http.ResponseWriter)
    (σ : Exchange) : Exchange :=
  {| Writer := f (Writer σ); Invoked := Invoked σ; Probed := Probed σ;
     Clock := Clock σ |}.

(** A synchronous [handler.HandleRequest(req)]: the call is recorded and
    the caller resumes when the handler returns. *)
Definition call (handler : api.Handler) (req : api.MCPRequest)
    (σ : Exchange) : api.Return * Exchange :=
  let ret := api.HandleRequest handler req in
  (ret, {| Writer := Writer σ; Invoked := Invoked σ ++ [(handler, req)];
           Probed := Probed σ; Clock := Clock σ + api.millis ret |}).

(** A [checker.Check()]. *)
Definition probe (checker : ServiceChecker) (σ : Exchange)
  : option string * Exchange :=
  (Check checker,
   {| Writer := Writer σ; Invoked := Invoked σ;
      Probed := Probed σ ++ [checker]; Clock := Clock σ |}).

Definition NewMCPServer : MCPServer :=
  {| registry := api.NewBasicToolRegistry; handlers := ∅;
     serviceCheckers := [] |}.

Definition RegisterTool (definition : api.ToolDefinition)
    (handler : api.Handler) (s : MCPServer) : MCPServer :=
  {| registry := api.RegisterTool definition (registry s);
     handlers := <[api.Name definition := handler]> (handlers s);
     serviceCheckers := serviceCheckers s |}.

Definition RegisterServiceChecker (checker : ServiceChecker)
    (s : MCPServer) : MCPServer :=
  {| registry := registry s; handlers := handlers s;
     serviceCheckers := serviceCheckers s ++ [checker] |}.

Definition sendErrorResponse (message : string) (statusCode : Z)
    (w : http.ResponseWriter) : http.ResponseWriter :=
  let w := http.Header_Set "Content-Type" "application/json" w in
  let w := http.WriteHeader statusCode w in
  http.Encode
    (http.DError {| api.Message := message; api.Code := "" |}) w.

Definition sendSuccessResponse (result : Value) (w : http.ResponseWriter)
  : http.ResponseWriter :=
  let w := http.Header_Set "Content-Type" "application/json" w in
  http.Encode (http.DFinal {| api.Result := result |}) w.

(** The body of the loop of [validateParameters], for one entry of the
    schema: [None] goes on to the next entry, [Some msg] returns the
    error [msg]. *)
Definition validateParameter (rt : Runtime) (input : gmap string Value)
    (paramName : string) (paramSchema : Value) : option string :=
  match as_object paramSchema with
  | None => None
  | Some schemaObj =>
    let required := default false (schemaObj !! "required" ≫= as_bool) in
    if required && negb (bool_decide (is_Some (input !! paramName)))
    then Some ("required parameter missing: " +:+ paramName)
    else
      match input !! paramName with
      | None => None
      | Some value =>
        let expectedType := default "" (schemaObj !! "type" ≫= as_string) in
        if String.eqb expectedType "" then None
        else if String.eqb expectedType "string" then
          match as_string value with
          | Some _ => None
          | None => Some ("parameter " +:+ paramName +:+ " must be a string")
          end
        else if String.eqb expectedType "number" then
          match as_float64 value with
          | Some _ => None
          | None => Some ("parameter " +:+ paramName +:+ " must be a number")
          end
        else if String.eqb expectedType "integer" then
          match as_float64 value with
          | Some num =>
            if float64_eqb (float64_of_int (int_of_float64 rt num)) num
            then None
            else Some ("parameter " +:+ paramName +:+ " must be an integer")
          | None =>
            Some ("parameter " +:+ paramName +:+ " must be an integer")
          end
        else if String.eqb expectedType "boolean" then
          match as_bool value with
          | Some _ => None
          | None => Some ("parameter " +:+ paramName +:+ " must be a boolean")
          end
        else if String.eqb expectedType "array" then
          match as_array value with
          | Some _ => None
          | None => Some ("parameter " +:+ paramName +:+ " must be an array")
          end
        else if String.eqb expectedType "object" then
          match as_object value with
          | Some _ => None
          | None => Some ("parameter " +:+ paramName +:+ " must be an object")
          end
        else None
      end
  end.

(** The loop itself, over the entries in the order [range] visits them:
    the first error returns. *)
Fixpoint validateEntries (rt : Runtime) (input : gmap string Value)
    (entries : list (string * Value)) : option string :=
  match entries with
  | [] => None
  | (paramName, paramSchema) :: rest =>
    match validateParameter rt input paramName paramSchema with
    | Some e => Some e
    | None => validateEntries rt input rest
    end
  end.

Definition validateParameters (rt : Runtime) (input : gmap string Value)
    (schema : gmap string Value) : option string :=
  validateEntries rt input (range_order rt schema).

Definition supportStreamingResponse (handler : api.Handler) : bool := false.

(** [handleStreamingRequest]; the context it is given is not used. *)
Definition handleStreamingRequest (ctx : http.Context)
    (req : api.MCPRequest) (handler : api.Handler) (σ : Exchange)
  : Exchange :=
  let '(ret, σ) := call handler req σ in
  match api.err ret with
  | Some e =>
    let partialResponse :=
      {| api.Content := VObject {[ "error" := VString e ]};
         api.Done := true |} in
    on_writer http.Flush
      (on_writer (http.Encode (http.DPartial partialResponse)) σ)
  | None =>
    let partialResponse :=
      {| api.Content := api.result ret; api.Done := true |} in
    on_writer http.Flush
      (on_writer (http.Encode (http.DPartial partialResponse)) σ)
  end.

(** [HandleRun].  The goroutine of the streaming branch is run to its end
    in place. *)
Definition HandleRun (rt : Runtime) (s : MCPServer) (r : http.Request)
    (σ : Exchange) : Exchange :=
  if negb (String.eqb (http.Method r) http.MethodPost) then
    on_writer
      (sendErrorResponse "Method not allowed" http.StatusMethodNotAllowed) σ
  else
    match http.Body r with
    | http.BodyUnreadable =>
      on_writer
        (sendErrorResponse "Failed to read request body"
           http.StatusBadRequest) σ
    | http.BodyMalformed =>
      on_writer
        (sendErrorResponse "Invalid request format" http.StatusBadRequest) σ
    | http.BodyJSON mcpRequest =>
      if String.eqb (api.ToolName mcpRequest) "" then
        on_writer
          (sendErrorResponse "Missing tool_name in request"
             http.StatusBadRequest) σ
      else
        let toolDef :=
          (api.GetTool (registry s) (api.ToolName mcpRequest)).1 in
        match handlers s !! api.ToolName mcpRequest with
        | None =>
          on_writer
            (sendErrorResponse
               ("Unknown tool: " +:+ api.ToolName mcpRequest)
               http.StatusBadRequest) σ
        | Some handler =>
          match validateParameters rt (api.Input mcpRequest)
                  (api.Parameters toolDef) with
          | Some e =>
            on_writer
              (sendErrorResponse ("Parameter validation failed: " +:+ e)
                 http.StatusBadRequest) σ
          | None =>
            let ctx :=
              if 0 <? api.Timeout mcpRequest
              then http.WithTimeout (http.Ctx r) (Clock σ)
                     (api.Timeout mcpRequest)
              else http.Ctx r in
            if supportStreamingResponse handler then
              if http.IsFlusher (Writer σ) then
                let σ :=
                  on_writer
                    (http.Header_Set "Content-Type" "application/json") σ in
                let σ :=
                  on_writer
                    (http.Header_Set "Transfer-Encoding" "chunked") σ in
                handleStreamingRequest ctx mcpRequest handler σ
              else
                on_writer
                  (sendErrorResponse "Streaming not supported"
                     http.StatusInternalServerError) σ
            else
              let '(ret, σ) := call handler mcpRequest σ in
              match api.err ret with
              | Some e =>
                on_writer
                  (sendErrorResponse e http.StatusInternalServerError) σ
              | None => on_writer (sendSuccessResponse (api.result ret)) σ
              end
          end
        end
    end.

Definition HandleListTools (rt : Runtime) (s : MCPServer)
    (r : http.Request) (σ : Exchange) : Exchange :=
  if negb (String.eqb (http.Method r) http.MethodGet) then
    on_writer
      (sendErrorResponse "Method not allowed" http.StatusMethodNotAllowed) σ
  else
    let tools := api.ListTools rt (registry s) in
    let σ :=
      on_writer (http.Header_Set "Content-Type" "application/json") σ in
    on_writer (http.Encode (http.DTools tools)) σ.

Definition HandleHealth (s : MCPServer) (r : http.Request) (σ : Exchange)
  : Exchange :=
  let σ := on_writer (http.Header_Set "Content-Type" "application/json") σ in
  let σ := on_writer (http.WriteHeader http.StatusOK) σ in
  on_writer (http.Encode (http.DStatus "ok")) σ.

(** One round of the loop of [HandleServiceHealth], on the loop's
    variables [results] and [allHealthy]. *)
Definition checkService
    (acc : gmap string string * bool * Exchange) (checker : ServiceChecker)
  : gmap string string * bool * Exchange :=
  let '(results, allHealthy, σ) := acc in
  let serviceName := Name checker in
  let '(e, σ) := probe checker σ in
  match e with
  | Some msg => (<[serviceName := "unhealthy: " +:+ msg]> results, false, σ)
  | None => (<[serviceName := "healthy"]> results, allHealthy, σ)
  end.

Definition HandleServiceHealth (s : MCPServer) (r : http.Request)
    (σ : Exchange) : Exchange :=
  if negb (String.eqb (http.Method r) http.MethodGet) then
    on_writer
      (sendErrorResponse "Method not allowed" http.StatusMethodNotAllowed) σ
  else
    let σ :=
      on_writer (http.Header_Set "Content-Type" "application/json") σ in
    let '(results, allHealthy, σ) :=
      foldl checkService (∅, true, σ) (serviceCheckers s) in
    let status := if allHealthy then "ok" else "degraded" in
    let statusCode :=
      if allHealthy then http.StatusOK else http.StatusServiceUnavailable in
    let σ := on_writer (http.WriteHeader statusCode) σ in
    on_writer (http.Encode (http.DServiceHealth status results)) σ.

(** The routes [Start] registers on its mux. *)
Definition routes (rt : Runtime) (s : MCPServer)
  : list (string * (http.Request → Exchange → Exchange)) :=
  [ ("/health", HandleHealth s);
    ("/v1/run", HandleRun rt s);
    ("/v1/tools", HandleListTools rt s);
    ("/v1/service-health", HandleServiceHealth s) ].

End server.


(* ===================================================================== *)
(** ** Reachable states and concrete runtimes *)
(* ===================================================================== *)

(** The registry after [RegisterTool] was called on a fresh registry with
    each definition of [defs] in turn. *)
Definition registered (defs : list api.ToolDefinition)
  : api.BasicToolRegistry :=
  foldl (λ r d, api.RegisterTool d r) api.NewBasicToolRegistry defs.

(** The calls that set a server up before it starts. *)
Inductive Setup :=
| SetupTool (definition : api.ToolDefinition) (handler : api.Handler)
| SetupChecker (checker : server.ServiceChecker).

Definition setup (s : server.MCPServer) (c : Setup) : server.MCPServer :=
  match c with
  | SetupTool definition handler => server.RegisterTool definition handler s
  | SetupChecker checker => server.RegisterServiceChecker checker s
  end.

(** The server after the calls [cs] were made on [NewMCPServer()]. *)
Definition configured (cs : list Setup) : server.MCPServer :=
  foldl setup server.NewMCPServer cs.

(** Two runtimes that visit a map in opposite orders.  On overflow the
    first converts like amd64 (always the smallest int), the second like
    arm64 (the nearest int). *)
Definition runtime_fwd : Runtime :=
  {| range_order := λ A m, map_to_list m;
     range_order_perm := λ A m, reflexivity (map_to_list m);
     int_overflow := λ _, min_int;
     int_overflow_int := λ _, eq_refl |}.

Definition saturate (x : float64) : Z :=
  if mant x <? 0 then min_int else max_int.

Lemma saturate_int x : in_int (saturate x) = true.
Proof. unfold saturate. by destruct (mant x <? 0). Qed.

Definition runtime_rev : Runtime :=
  {| range_order := λ A m, reverse (map_to_list m);
     range_order_perm := λ A m, reverse_Permutation (map_to_list m);
     int_overflow := saturate;
     int_overflow_int := saturate_int |}.

(* ===================================================================== *)
(** ** Notions the properties are stated with *)
(* ===================================================================== *)

(** The loop of the validator goes past the entry [kv]. *)
Definition accepts (rt : Runtime) (input : gmap string Value)
    (kv : string * Value) : Prop :=
  server.validateParameter rt input kv.1 kv.2 = None.

(** The error text [e] names the parameter [q]: it is one of the two
    shapes of message the validator builds. *)
Definition error_names (q : string) (e : string) : Prop :=
  e = "required parameter missing: " +:+ q ∨
  ∃ kind, e = "parameter " +:+ q +:+ " must be " +:+ kind.

(** The declared types as the specification words them (section 4.2): a
    textual value for "string", a numeric value for "number", a float64
    with a zero fractional part whose integral part fits an int for
    "integer", a boolean for "boolean", a sequence for "array", a mapping
    for "object"; any other type name constrains nothing. *)
Definition spec_has_type (ty : string) (v : Value) : bool :=
  if String.eqb ty "string" then bool_decide (is_Some (as_string v))
  else if String.eqb ty "number" then bool_decide (is_Some (as_float64 v))
  else if String.eqb ty "integer" then
    match v with
    | VNumber x =>
      float64_wf x && float64_integral x && in_int (float64_trunc x)
    | _ => false
    end
  else if String.eqb ty "boolean" then bool_decide (is_Some (as_bool v))
  else if String.eqb ty "array" then bool_decide (is_Some (as_array v))
  else if String.eqb ty "object" then bool_decide (is_Some (as_object v))
  else true.

(** The input conforms to the schema: every declared parameter that is
    required is present, and every declared parameter that is present has
    its declared type. *)
Definition conforms (input schema : gmap string Value) : Prop :=
  ∀ q spec, schema !! q = Some (VObject spec) →
    (spec !! "required" = Some (VBool true) → is_Some (input !! q)) ∧
    (∀ v ty, input !! q = Some v → spec !! "type" = Some (VString ty) →
       spec_has_type ty v = true).

(** A request is dispatched: it is a POST whose body decodes to [req],
    which names a tool that has the handler [h]. *)
Definition dispatched (s : server.MCPServer) (r : http.Request)
    (req : api.MCPRequest) (h : api.Handler) : Prop :=
  http.Method r = http.MethodPost ∧
  http.Body r = http.BodyJSON req ∧
  api.ToolName req ≠ "" ∧
  server.handlers s !! api.ToolName req = Some h.

(** The schema [HandleRun] validates the request [req] against. *)
Definition schema_of (s : server.MCPServer) (req : api.MCPRequest)
  : gmap string Value :=
  api.Parameters (api.GetTool (server.registry s) (api.ToolName req)).1.

(** The method the specification gives each endpoint (section 6): POST
    for "/v1/run", GET for the others. *)
Definition endpoint_method (path : string) : string :=
  if String.eqb path "/v1/run" then http.MethodPost else http.MethodGet.

(** The entry the health report holds for a checker. *)
Definition report (c : server.ServiceChecker) : string :=
  match server.Check c with
  | Some msg => "unhealthy: " +:+ msg
  | None => "healthy"
  end.

(* ===================================================================== *)
(** ** Sample data *)
(* ===================================================================== *)

(** Sample values: 5.0, 5.5 and 1e19 as float64 numbers, and the
    declaration of an integer parameter. *)
Definition float_5 : float64 := Float64 5 0.
Definition float_5_5 : float64 := Float64 11 (-1).
Definition float_1e19 : float64 := Float64 (5 ^ 19) 19.

Definition integer_spec : gmap string Value :=
  {[ "type" := VString "integer" ]}.
Definition integer_schema : gmap string Value :=
  {[ "n" := VObject integer_spec ]}.

(** The tool of the specification's end-to-end example: "Echo" takes a
    required string "msg" and answers with it. *)
Definition required_string : gmap string Value :=
  {[ "type" := VString "string"; "required" := VBool true ]}.

Definition echo_definition : api.ToolDefinition :=
  {| api.Name := "Echo"; api.Description := "Echo the message";
     api.Parameters := {[ "msg" := VObject required_string ]} |}.

Definition echo_handler : api.Handler :=
  {| api.HandleRequest := λ req,
       {| api.result :=
            VObject {[ "echoed" := default VNil (api.Input req !! "msg") ]};
          api.err := None; api.millis := 0 |} |}.

Definition echo_server : server.MCPServer :=
  configured [SetupTool echo_definition echo_handler].

(** POST /v1/run with the body [{"tool_name": tool, "input": input,
    "timeout": timeout}]. *)
Definition mcp_request (tool : string) (input : gmap string Value)
    (timeout : Z) : api.MCPRequest :=
  {| api.Input := input; api.ToolName := tool; api.RequestID := "";
     api.Timeout := timeout; api.AccessToken := "" |}.

Definition post_run (req : api.MCPRequest) : http.Request :=
  {| http.Method := "POST"; http.Body := http.BodyJSON req;
     http.Ctx := {| http.Deadline := None |} |}.

(** A tool whose handler fails, and one whose handler answers after five
    seconds. *)
Definition failing_handler : api.Handler :=
  {| api.HandleRequest := λ _,
       {| api.result := VNil; api.err := Some "sonarr client not configured";
          api.millis := 0 |} |}.

Definition slow_handler : api.Handler :=
  {| api.HandleRequest := λ _,
       {| api.result := VString "done"; api.err := None;
          api.millis := 5000 |} |}.

Definition plain_definition (name : string) : api.ToolDefinition :=
  {| api.Name := name; api.Description := ""; api.Parameters := ∅ |}.

Definition sample_server : server.MCPServer :=
  configured [SetupTool (plain_definition "Failing") failing_handler;
              SetupTool (plain_definition "Slow") slow_handler].

(** The checkers of the specification's example: "A" is healthy, "B" is
    down. *)
Definition checker_A : server.ServiceChecker :=
  {| server.Check := None; server.Name := "A" |}.
Definition checker_B : server.ServiceChecker :=
  {| server.Check := Some "x down"; server.Name := "B" |}.
Definition checked_server : server.MCPServer :=
  configured [SetupChecker checker_A; SetupChecker checker_B].

Definition get_request : http.Request :=
  {| http.Method := "GET"; http.Body := http.BodyUnreadable;
     http.Ctx := {| http.Deadline := None |} |}.

(** A schema with two required parameters, and an input with the one
    key "n". *)
Definition required_only : gmap string Value := {[ "required" := VBool true ]}.
Definition two_required : gmap string Value :=
  {[ "first" := VObject required_only; "second" := VObject required_only ]}.

Definition input_n (v : Value) : gmap string Value := {[ "n" := v ]}.

(* ===================================================================== *)
(** ** What a sequence of setup calls registers *)
(* ===================================================================== *)

(** The definitions and the checkers among the setup calls [cs], in the
    order of the calls. *)
Definition definitions_of (cs : list Setup) : list api.ToolDefinition :=
  omap (λ c, match c with
             | SetupTool definition _ => Some definition
             | SetupChecker _ => None
             end) cs.

Definition checkers_of (cs : list Setup) : list server.ServiceChecker :=
  omap (λ c, match c with
             | SetupTool _ _ => None
             | SetupChecker checker => Some checker
             end) cs.

(* ===================================================================== *)
(** ** Package arr: the clients and the handlers of the tools *)
(* ===================================================================== *)

(** The two results [(T, error)] of a Go call that can fail. *)
Inductive outcome (A : Type) :=
| Ok (a : A)
| Fail (msg : string).
Arguments Ok {_} _.
Arguments Fail {_} _.

(** [strconv.Itoa] *)
Definition Itoa (n : Z) : string := NilZero.string_of_int (Z.to_int n).

(** [strings.Join] *)
Fixpoint Join (elems : list string) (sep : string) : string :=
  match elems with
  | [] => ""
  | [e] => e
  | e :: rest => e +:+ sep +:+ Join rest sep
  end.

(** [url.Values], and its [Add]. *)
Definition Values_Add (key value : string) (v : gmap string (list string))
  : gmap string (list string) :=
  <[key := default [] (v !! key) ++ [value]]> v.

Module arr.

(** A client of one service.  Its [HTTPClient] is always the one
    [NewClient] makes, with a timeout of 30 seconds, and is left out. *)
Record Client := {
  BaseURL : string;
  APIKey : string;
  ServiceName : string }.

Definition NewClient (baseURL apiKey serviceName : string) : Client :=
  {| BaseURL := baseURL; APIKey := apiKey; ServiceName := serviceName |}.

(** What lies outside the program.  [doRequest c method path body] is what
    [c.doRequest] returns, which the service behind the client decides,
    with the time in milliseconds the caller waited for it; [Check c] is
    what [c.Check()] returns.  The three codecs are those of
    [encoding/json] ([Marshal], and [Unmarshal] into a
    [[]map[string]interface{}] and into a [map[string]interface{}]) and of
    [net/url] ([Values.Encode]). *)
Record Outside := {
  doRequest : Client → string → string → option string → outcome string * Z;
  Check : Client → option string;
  json_Marshal : Value → outcome string;
  json_Unmarshal_list : string → outcome (list (gmap string Value));
  json_Unmarshal_map : string → outcome (gmap string Value);
  Values_Encode : gmap string (list string) → string }.

(** [c.Name()] *)
Definition Name (c : Client) : string := ServiceName c.

(** The client as a [server.ServiceChecker]. *)
Definition checker (o : Outside) (c : Client) : server.ServiceChecker :=
  {| server.Check := Check o c; server.Name := Name c |}.

(** A GET of [path] whose answer is a list of objects: the shape of
    [GetSeries], [GetMovies], [GetIndexers], [GetRootFolders] and
    [GetQualityProfiles], which differ in the path and in the text [what]
    of their error. *)
Definition get_list (o : Outside) (c : Client) (path what : string)
  : outcome (list (gmap string Value)) * Z :=
  let '(respBody, t) := doRequest o c http.MethodGet path None in
  match respBody with
  | Fail e => (Fail (what +:+ ": " +:+ e), t)
  | Ok respBody =>
    match json_Unmarshal_list o respBody with
    | Fail e => (Fail ("error parsing response: " +:+ e), t)
    | Ok result => (Ok result, t)
    end
  end.

(** A search by [term]: the shape of [SearchSeries] and [SearchMovies].  A
    term shorter than 100 bytes goes into the query of a GET, a longer one
    into the body of a POST. *)
Definition lookup (o : Outside) (c : Client) (path what term : string)
  : outcome (list (gmap string Value)) * Z :=
  if (String.length term <? 100)%nat then
    let params := Values_Add "term" term ∅ in
    let endpoint := path +:+ "?" +:+ Values_Encode o params in
    let '(respBody, t) := doRequest o c http.MethodGet endpoint None in
    match respBody with
    | Fail e => (Fail (what +:+ ": " +:+ e), t)
    | Ok respBody =>
      match json_Unmarshal_list o respBody with
      | Fail e => (Fail ("error parsing response: " +:+ e), t)
      | Ok result => (Ok result, t)
      end
    end
  else
    match json_Marshal o (VObject {[ "term" := VString term ]}) with
    | Fail e => (Fail ("error creating request body: " +:+ e), 0)
    | Ok requestBody =>
      let '(respBody, t) :=
        doRequest o c http.MethodPost path (Some requestBody) in
      match respBody with
      | Fail e => (Fail (what +:+ ": " +:+ e), t)
      | Ok respBody =>
        match json_Unmarshal_list o respBody with
        | Fail e => (Fail ("error parsing response: " +:+ e), t)
        | Ok result => (Ok result, t)
        end
      end
    end.

(** The loop over [requiredFields]: the first field missing from [data]. *)
Fixpoint first_missing (requiredFields : list string)
    (data : gmap string Value) : option string :=
  match requiredFields with
  | [] => None
  | field :: rest =>
    match data !! field with
    | None => Some field
    | Some _ => first_missing rest data
    end
  end.

(** [if _, exists := data[key]; !exists { data[key] = value }] *)
Definition set_default (key : string) (value : Value)
    (data : gmap string Value) : gmap string Value :=
  match data !! key with
  | Some _ => data
  | None => <[key := value]> data
  end.

(** An addition: the shape of [AddSeries] and [AddMovie].  The required
    fields are checked in order, the three defaults are filled in, and the
    data is posted. *)
Definition add (o : Outside) (c : Client) (path kind what : string)
    (requiredFields : list string) (defaults : list (string * Value))
    (data : gmap string Value) : outcome (gmap string Value) * Z :=
  match first_missing requiredFields data with
  | Some field =>
    (Fail ("missing required field for adding " +:+ kind +:+ ": " +:+ field), 0)
  | None =>
    let data := foldl (λ data kv, set_default kv.1 kv.2 data) data defaults in
    match json_Marshal o (VObject data) with
    | Fail e => (Fail ("error creating request body: " +:+ e), 0)
    | Ok requestBody =>
      let '(respBody, t) :=
        doRequest o c http.MethodPost path (Some requestBody) in
      match respBody with
      | Fail e => (Fail (what +:+ ": " +:+ e), t)
      | Ok respBody =>
        match json_Unmarshal_map o respBody with
        | Fail e => (Fail ("error parsing response: " +:+ e), t)
        | Ok result => (Ok result, t)
        end
      end
    end
  end.

Module SonarrClient.

Definition New (baseURL apiKey : string) : Client :=
  NewClient baseURL apiKey "Sonarr".

Definition GetSeries (o : Outside) (c : Client) :=
  get_list o c "/api/v3/series" "failed to get series from Sonarr".

Definition SearchSeries (o : Outside) (c : Client) (term : string) :=
  lookup o c "/api/v3/series/lookup" "failed to search series in Sonarr" term.

Definition AddSeries (o : Outside) (c : Client)
    (seriesData : gmap string Value) :=
  add o c "/api/v3/series" "series" "failed to add series to Sonarr"
    ["tvdbId"; "title"; "qualityProfileId"; "rootFolderPath"]
    [("monitored", VBool true); ("seasonFolder", VBool true);
     ("addOptions", VObject {[ "searchForMissingEpisodes" := VBool true ]})]
    seriesData.

Definition GetRootFolders (o : Outside) (c : Client) :=
  get_list o c "/api/v3/rootfolder" "failed to get root folders from Sonarr".

Definition GetQualityProfiles (o : Outside) (c : Client) :=
  get_list o c "/api/v3/qualityprofile"
    "failed to get quality profiles from Sonarr".

End SonarrClient.

Module RadarrClient.

Definition New (baseURL apiKey : string) : Client :=
  NewClient baseURL apiKey "Radarr".

Definition GetMovies (o : Outside) (c : Client) :=
  get_list o c "/api/v3/movie" "failed to get movies from Radarr".

Definition SearchMovies (o : Outside) (c : Client) (term : string) :=
  lookup o c "/api/v3/movie/lookup" "failed to search movies in Radarr" term.

Definition AddMovie (o : Outside) (c : Client)
    (movieData : gmap string Value) :=
  add o c "/api/v3/movie" "movie" "failed to add movie to Radarr"
    ["tmdbId"; "title"; "qualityProfileId"; "rootFolderPath"]
    [("monitored", VBool true); ("minimumAvailability", VString "released");
     ("addOptions", VObject {[ "searchForMovie" := VBool true ]})]
    movieData.

Definition GetRootFolders (o : Outside) (c : Client) :=
  get_list o c "/api/v3/rootfolder" "failed to get root folders from Radarr".

Definition GetQualityProfiles (o : Outside) (c : Client) :=
  get_list o c "/api/v3/qualityprofile"
    "failed to get quality profiles from Radarr".

End RadarrClient.

Module ProwlarrClient.

Definition New (baseURL apiKey : string) : Client :=
  NewClient baseURL apiKey "Prowlarr".

Definition GetIndexers (o : Outside) (c : Client) :=
  get_list o c "/api/v1/indexer" "failed to get indexers from Prowlarr".

Definition Search (o : Outside) (c : Client) (query : string)
    (categories : list Z) : outcome (list (gmap string Value)) * Z :=
  let params := Values_Add "query" query ∅ in
  let params :=
    if (0 <? length categories)%nat
    then Values_Add "categories" (Join (Itoa <$> categories) ",") params
    else params in
  get_list o c ("/api/v1/search?" +:+ Values_Encode o params)
    "failed to search in Prowlarr".

End ProwlarrClient.

(** A list of objects as an [interface{}]. *)
Definition objects (l : list (gmap string Value)) : Value :=
  VArray (VObject <$> l).

(** [return nil, fmt.Errorf(...)] after waiting [t] milliseconds. *)
Definition failed (msg : string) (t : Z) : api.Return :=
  {| api.result := VNil; api.err := Some msg; api.millis := t |}.

(** [return map[string]interface{}{key: value}, nil] *)
Definition answered (key : string) (value : Value) (t : Z) : api.Return :=
  {| api.result := VObject {[ key := value ]}; api.err := None;
     api.millis := t |}.

(** The handlers that list: [SonarrListHandler], [RadarrListHandler],
    [ProwlarrIndexersHandler] and the handlers of the profiles and of the
    root folders.  [Client] is [None] for a nil pointer. *)
Definition list_handler (service key what : string)
    (fetch : Client → outcome (list (gmap string Value)) * Z)
    (Client : option Client) : api.Handler :=
  {| api.HandleRequest := λ req,
       match Client with
       | None => failed (service +:+ " client not configured") 0
       | Some c =>
         let '(r, t) := fetch c in
         match r with
         | Fail e => failed (what +:+ ": " +:+ e) t
         | Ok l => answered key (objects l) t
         end
       end |}.

(** The handlers that search by the parameter "query":
    [SonarrSearchHandler] and [RadarrSearchHandler]. *)
Definition search_handler (service what : string)
    (search : Client → string → outcome (list (gmap string Value)) * Z)
    (Client : option Client) : api.Handler :=
  {| api.HandleRequest := λ req,
       match Client with
       | None => failed (service +:+ " client not configured") 0
       | Some c =>
         match api.Input req !! "query" ≫= as_string with
         | None => failed "missing or invalid 'query' parameter" 0
         | Some query =>
           if String.eqb query "" then
             failed "missing or invalid 'query' parameter" 0
           else
             let '(r, t) := search c query in
             match r with
             | Fail e => failed (what +:+ ": " +:+ e) t
             | Ok results => answered "results" (objects results) t
             end
         end
       end |}.

(** The handlers that add the object under the parameter [param]:
    [SonarrAddSeriesHandler] and [RadarrAddMovieHandler]. *)
Definition add_handler (service param key what : string)
    (addData : Client → gmap string Value → outcome (gmap string Value) * Z)
    (Client : option Client) : api.Handler :=
  {| api.HandleRequest := λ req,
       match Client with
       | None => failed (service +:+ " client not configured") 0
       | Some c =>
         match api.Input req !! param ≫= as_object with
         | None =>
           failed ("missing or invalid '" +:+ param +:+ "' parameter") 0
         | Some data =>
           if (size data =? 0)%nat then
             failed ("missing or invalid '" +:+ param +:+ "' parameter") 0
           else
             let '(r, t) := addData c data in
             match r with
             | Fail e => failed (what +:+ ": " +:+ e) t
             | Ok result => answered key (VObject result) t
             end
         end
       end |}.

Definition SonarrSearchHandler (o : Outside) :=
  search_handler "sonarr" "sonarr search failed" (SonarrClient.SearchSeries o).

Definition SonarrListHandler (o : Outside) :=
  list_handler "sonarr" "series" "failed to get series from Sonarr"
    (SonarrClient.GetSeries o).

Definition SonarrAddSeriesHandler (o : Outside) :=
  add_handler "sonarr" "seriesData" "series" "failed to add series to Sonarr"
    (SonarrClient.AddSeries o).

Definition SonarrGetProfilesHandler (o : Outside) :=
  list_handler "sonarr" "profiles" "failed to get quality profiles from Sonarr"
    (SonarrClient.GetQualityProfiles o).

Definition SonarrGetRootFoldersHandler (o : Outside) :=
  list_handler "sonarr" "folders" "failed to get root folders from Sonarr"
    (SonarrClient.GetRootFolders o).

Definition RadarrSearchHandler (o : Outside) :=
  search_handler "radarr" "radarr search failed" (RadarrClient.SearchMovies o).

Definition RadarrListHandler (o : Outside) :=
  list_handler "radarr" "movies" "failed to get movies from Radarr"
    (RadarrClient.GetMovies o).

Definition RadarrAddMovieHandler (o : Outside) :=
  add_handler "radarr" "movieData" "movie" "failed to add movie to Radarr"
    (RadarrClient.AddMovie o).

Definition RadarrGetProfilesHandler (o : Outside) :=
  list_handler "radarr" "profiles" "failed to get quality profiles from Radarr"
    (RadarrClient.GetQualityProfiles o).

Definition RadarrGetRootFoldersHandler (o : Outside) :=
  list_handler "radarr" "folders" "failed to get root folders from Radarr"
    (RadarrClient.GetRootFolders o).

(** The categories [ProwlarrSearchHandler] takes from the input: the
    numbers of the sequence under "categories", each converted to an int;
    what is not a number is passed over, and so is a "categories" that is
    not a sequence. *)
Definition categories_of (rt : Runtime) (input : gmap string Value)
  : list Z :=
  match input !! "categories" with
  | Some categoriesParam =>
    match as_array categoriesParam with
    | Some categoriesSlice =>
      omap (λ cat, int_of_float64 rt <$> as_float64 cat) categoriesSlice
    | None => []
    end
  | None => []
  end.

Definition ProwlarrSearchHandler (rt : Runtime) (o : Outside)
    (Client : option Client) : api.Handler :=
  {| api.HandleRequest := λ req,
       match Client with
       | None => failed "prowlarr client not configured" 0
       | Some c =>
         match api.Input req !! "query" ≫= as_string with
         | None => failed "missing or invalid 'query' parameter" 0
         | Some query =>
           if String.eqb query "" then
             failed "missing or invalid 'query' parameter" 0
           else
             let categories := categories_of rt (api.Input req) in
             let '(r, t) := ProwlarrClient.Search o c query categories in
             match r with
             | Fail e => failed ("prowlarr search failed: " +:+ e) t
             | Ok results => answered "results" (objects results) t
             end
         end
       end |}.

Definition ProwlarrIndexersHandler (o : Outside) :=
  list_handler "prowlarr" "indexers" "failed to get indexers from Prowlarr"
    (ProwlarrClient.GetIndexers o).

End arr.

(* ===================================================================== *)
(** ** Package main: the configuration and the wiring of the server *)
(* ===================================================================== *)

Module main.

Record Config := {
  Port : Z;
  Host : string;
  LogLevel : string;
  SonarrURL : string;
  SonarrAPIKey : string;
  RadarrURL : string;
  RadarrAPIKey : string;
  ProwlarrURL : string;
  ProwlarrAPIKey : string }.

(** The [validLevels] of [validateConfig]; a name that is not a key reads
    as [false]. *)
Definition validLevels : gmap string bool :=
  {[ "debug" := true; "info" := true; "warn" := true; "error" := true ]}.

Definition is_empty (s : string) : bool := String.eqb s "".

Definition validateConfig (config : Config) : option string :=
  if is_empty (Host config) then Some "host cannot be empty"
  else if (Port config <=? 0) || (65535 <? Port config) then
    Some "port must be between 1 and 65535"
  else if negb (default false (validLevels !! LogLevel config)) then
    Some "log level must be one of: debug, info, warn, error"
  else if (is_empty (SonarrURL config) || is_empty (SonarrAPIKey config)) &&
          (is_empty (RadarrURL config) || is_empty (RadarrAPIKey config)) &&
          (is_empty (ProwlarrURL config) || is_empty (ProwlarrAPIKey config))
  then
    Some "at least one service (Sonarr, Radarr, or Prowlarr) must be configured"
  else None.

(** [getClients]: the three results, [None] for a nil client. *)
Definition getClients (config : Config)
  : option arr.Client * option arr.Client * option arr.Client :=
  let sonarr :=
    if negb (is_empty (SonarrURL config)) &&
       negb (is_empty (SonarrAPIKey config))
    then Some (arr.SonarrClient.New (SonarrURL config) (SonarrAPIKey config))
    else None in
  let radarr :=
    if negb (is_empty (RadarrURL config)) &&
       negb (is_empty (RadarrAPIKey config))
    then Some (arr.RadarrClient.New (RadarrURL config) (RadarrAPIKey config))
    else None in
  let prowlarr :=
    if negb (is_empty (ProwlarrURL config)) &&
       negb (is_empty (ProwlarrAPIKey config))
    then Some (arr.ProwlarrClient.New (ProwlarrURL config)
                 (ProwlarrAPIKey config))
    else None in
  (sonarr, radarr, prowlarr).

(** The declaration of a required string "query", and the definitions of
    the tools [setupServer] registers. *)
Definition query_parameter (description : string) : Value :=
  VObject {[ "type" := VString "string";
             "description" := VString description;
             "required" := VBool true ]}.

Definition object_parameter (description : string) : Value :=
  VObject {[ "type" := VString "object";
             "description" := VString description;
             "required" := VBool true ]}.

Definition tool (name description : string) (parameters : gmap string Value)
  : api.ToolDefinition :=
  {| api.Name := name; api.Description := description;
     api.Parameters := parameters |}.

(** The calls [setupServer] makes for a Sonarr client. *)
Definition sonarr_setup (o : arr.Outside) (c : arr.Client)
    (s : server.MCPServer) : server.MCPServer :=
  let s := server.RegisterServiceChecker (arr.checker o c) s in
  let s :=
    server.RegisterTool
      (tool "SonarrSearch" "Search for TV shows in Sonarr"
         {[ "query" := query_parameter "The search query for TV shows" ]})
      (arr.SonarrSearchHandler o (Some c)) s in
  let s :=
    server.RegisterTool (tool "SonarrList" "List TV shows in Sonarr" ∅)
      (arr.SonarrListHandler o (Some c)) s in
  let s :=
    server.RegisterTool
      (tool "SonarrAddSeries" "Add a new TV series to Sonarr"
         {[ "seriesData" :=
              object_parameter
                "The TV series data to add (requires tvdbId, title, qualityProfileId, rootFolderPath)" ]})
      (arr.SonarrAddSeriesHandler o (Some c)) s in
  let s :=
    server.RegisterTool
      (tool "SonarrGetProfiles" "Get quality profiles from Sonarr" ∅)
      (arr.SonarrGetProfilesHandler o (Some c)) s in
  server.RegisterTool
    (tool "SonarrGetRootFolders" "Get root folders from Sonarr" ∅)
    (arr.SonarrGetRootFoldersHandler o (Some c)) s.

(** The calls [setupServer] makes for a Radarr client. *)
Definition radarr_setup (o : arr.Outside) (c : arr.Client)
    (s : server.MCPServer) : server.MCPServer :=
  let s := server.RegisterServiceChecker (arr.checker o c) s in
  let s :=
    server.RegisterTool
      (tool "RadarrSearch" "Search for movies in Radarr"
         {[ "query" := query_parameter "The search query for movies" ]})
      (arr.RadarrSearchHandler o (Some c)) s in
  let s :=
    server.RegisterTool (tool "RadarrList" "List movies in Radarr" ∅)
      (arr.RadarrListHandler o (Some c)) s in
  let s :=
    server.RegisterTool
      (tool "RadarrAddMovie" "Add a new movie to Radarr"
         {[ "movieData" :=
              object_parameter
                "The movie data to add (requires tmdbId, title, qualityProfileId, rootFolderPath)" ]})
      (arr.RadarrAddMovieHandler o (Some c)) s in
  let s :=
    server.RegisterTool
      (tool "RadarrGetProfiles" "Get quality profiles from Radarr" ∅)
      (arr.RadarrGetProfilesHandler o (Some c)) s in
  server.RegisterTool
    (tool "RadarrGetRootFolders" "Get root folders from Radarr" ∅)
    (arr.RadarrGetRootFoldersHandler o (Some c)) s.

(** The calls [setupServer] makes for a Prowlarr client. *)
Definition prowlarr_setup (rt : Runtime) (o : arr.Outside) (c : arr.Client)
    (s : server.MCPServer) : server.MCPServer :=
  let s := server.RegisterServiceChecker (arr.checker o c) s in
  let s :=
    server.RegisterTool
      (tool "ProwlarrSearch" "Search for content using Prowlarr indexers"
         {[ "query" := query_parameter "The search query for content";
            "categories" :=
              VObject
                {[ "type" := VString "array";
                   "description" :=
                     VString "Optional category IDs to filter results";
                   "items" := VObject {[ "type" := VString "integer" ]} ]} ]})
      (arr.ProwlarrSearchHandler rt o (Some c)) s in
  server.RegisterTool (tool "ProwlarrIndexers" "List Prowlarr indexers" ∅)
    (arr.ProwlarrIndexersHandler o (Some c)) s.

Definition setupServer (rt : Runtime) (o : arr.Outside)
    (sonarrClient radarrClient prowlarrClient : option arr.Client)
  : server.MCPServer :=
  let mcpServer := server.NewMCPServer in
  let mcpServer :=
    match sonarrClient with
    | Some c => sonarr_setup o c mcpServer
    | None => mcpServer
    end in
  let mcpServer :=
    match radarrClient with
    | Some c => radarr_setup o c mcpServer
    | None => mcpServer
    end in
  match prowlarrClient with
  | Some c => prowlarr_setup rt o c mcpServer
  | None => mcpServer
  end.

End main.

(* ===================================================================== *)
(** ** The wiring as setup calls, and sample data for it *)
(* ===================================================================== *)

(** A service is configured when both its URL and its key are given. *)
Definition service_configured (url key : string) : Prop :=
  url ≠ "" ∧ key ≠ "".

(** The names of the tools of each service. *)
Definition sonarr_tools : list string :=
  ["SonarrSearch"; "SonarrList"; "SonarrAddSeries"; "SonarrGetProfiles";
   "SonarrGetRootFolders"].
Definition radarr_tools : list string :=
  ["RadarrSearch"; "RadarrList"; "RadarrAddMovie"; "RadarrGetProfiles";
   "RadarrGetRootFolders"].
Definition prowlarr_tools : list string :=
  ["ProwlarrSearch"; "ProwlarrIndexers"].

(** The tools and the checkers a wiring is expected to hold for the
    clients it is given. *)
Definition tools_for {A} (client : option A) (names : list string)
  : list string :=
  match client with Some _ => names | None => [] end.

Definition checkers_for (o : arr.Outside)
    (sonarrClient radarrClient prowlarrClient : option arr.Client)
  : list server.ServiceChecker :=
  (arr.checker o <$> option_list sonarrClient) ++
  (arr.checker o <$> option_list radarrClient) ++
  (arr.checker o <$> option_list prowlarrClient).

(** An outside in which no service can be reached, and one in which every
    request is answered with an empty list after 20 ms. *)
Definition unreachable : arr.Outside :=
  {| arr.doRequest := λ _ _ _ _, (Fail "connection refused", 0);
     arr.Check := λ _, Some "health check failed: connection refused";
     arr.json_Marshal := λ _, Ok "{}";
     arr.json_Unmarshal_list := λ _, Ok [];
     arr.json_Unmarshal_map := λ _, Ok ∅;
     arr.Values_Encode := λ _, "" |}.

Definition quiet : arr.Outside :=
  {| arr.doRequest := λ _ _ _ _, (Ok "[]", 20);
     arr.Check := λ _, None;
     arr.json_Marshal := λ _, Ok "{}";
     arr.json_Unmarshal_list := λ _, Ok [];
     arr.json_Unmarshal_map := λ _, Ok ∅;
     arr.Values_Encode := λ _, "" |}.

(** A configuration with Sonarr alone. *)
Definition sonarr_only : main.Config :=
  {| main.Port := 8080; main.Host := "localhost"; main.LogLevel := "info";
     main.SonarrURL := "http://localhost:8989"; main.SonarrAPIKey := "key";
     main.RadarrURL := ""; main.RadarrAPIKey := "";
     main.ProwlarrURL := ""; main.ProwlarrAPIKey := "" |}.

Definition sonarr_client : arr.Client :=
  arr.SonarrClient.New "http://localhost:8989" "key".

(** The server [main] starts for a configuration: the clients of
    [getClients] handed to [setupServer]. *)
Definition wired (rt : Runtime) (o : arr.Outside) (config : main.Config)
  : server.MCPServer :=
  let '(sonarrClient, radarrClient, prowlarrClient) :=
    main.getClients config in
  main.setupServer rt o sonarrClient radarrClient prowlarrClient.

(** The seven tools that list: the path they get, the text of their
    error, the key of their result, and their handler. *)
Definition list_tools (o : arr.Outside)
  : list (string * string * string * (option arr.Client → api.Handler)) :=
  [ ("/api/v3/series", "failed to get series from Sonarr", "series",
     arr.SonarrListHandler o);
    ("/api/v3/qualityprofile", "failed to get quality profiles from Sonarr",
     "profiles", arr.SonarrGetProfilesHandler o);
    ("/api/v3/rootfolder", "failed to get root folders from Sonarr",
     "folders", arr.SonarrGetRootFoldersHandler o);
    ("/api/v3/movie", "failed to get movies from Radarr", "movies",
     arr.RadarrListHandler o);
    ("/api/v3/qualityprofile", "failed to get quality profiles from Radarr",
     "profiles", arr.RadarrGetProfilesHandler o);
    ("/api/v3/rootfolder", "failed to get root folders from Radarr",
     "folders", arr.RadarrGetRootFoldersHandler o);
    ("/api/v1/indexer", "failed to get indexers from Prowlarr", "indexers",
     arr.ProwlarrIndexersHandler o) ].

(** The declaration of "categories" in the tool "ProwlarrSearch". *)
Definition categories_parameter : Value :=
  VObject
    {[ "type" := VString "array";
       "description" := VString "Optional category IDs to filter results";
       "items" := VObject {[ "type" := VString "integer" ]} ]}.

(** A search whose categories are 5.5, the string "x" and 5. *)
Definition mixed_categories : api.MCPRequest :=
  mcp_request "ProwlarrSearch"
    {[ "query" := VString "ubuntu";
       "categories" :=
         VArray [VNumber float_5_5; VString "x"; VNumber float_5] ]} 0.

(* ===================================================================== *)
(** ** Package logger *)
(* ===================================================================== *)

Module logger.

(** [type Level int] and its four constants. *)
Definition Level := Z.
Definition Debug : Level := 0.
Definition Info : Level := 1.
Definition Warn : Level := 2.
Definition Error : Level := 3.

Definition levelStrings : gmap Z string :=
  {[ Debug := "DEBUG"; Info := "INFO"; Warn := "WARN"; Error := "ERROR" ]}.

Definition stringToLevel : gmap string Level :=
  {[ "debug" := Debug; "info" := Info; "warn" := Warn; "error" := Error ]}.

(** A logger: its level, its prefix, and what was written to its writer so
    far, oldest first.  Writing is taken to succeed. *)
Record Logger := {
  level : Level;
  prefix : string;
  writer : list string }.

(** [New]; [ToLower] is [strings.ToLower]. *)
Definition New (ToLower : string → string) (lvl pfx : string) : Logger :=
  {| level := default Info (stringToLevel !! ToLower lvl);
     prefix := pfx; writer := [] |}.

Definition SetLevel (ToLower : string → string) (lvl : string) (l : Logger)
  : Logger :=
  match stringToLevel !! ToLower lvl with
  | Some newLevel =>
    {| level := newLevel; prefix := prefix l; writer := writer l |}
  | None => l
  end.

(** [SetOutput]: the new writer, with what it already holds. *)
Definition SetOutput (w : list string) (l : Logger) : Logger :=
  {| level := level l; prefix := prefix l; writer := w |}.

(** The line feed that ends an entry. *)
Definition newline : string := String (Ascii.ascii_of_nat 10) EmptyString.

(** [log]: [timestamp] is the formatted time of the call and [message] the
    formatted text. *)
Definition log (lvl : Level) (timestamp message : string) (l : Logger)
  : Logger :=
  if lvl <? level l then l
  else
    let logEntry :=
      timestamp +:+ " [" +:+ default "" (levelStrings !! lvl) +:+ "] " +:+
      prefix l +:+ ": " +:+ message +:+ newline in
    {| level := level l; prefix := prefix l;
       writer := writer l ++ [logEntry] |}.

End logger.

(** The calls made on a logger after [New]. *)
Inductive LoggerCall :=
| CallSetLevel (lvl : string)
| CallSetOutput (w : list string)
| CallLog (lvl : logger.Level) (timestamp message : string).

Definition logger_call (ToLower : string → string) (l : logger.Logger)
    (c : LoggerCall) : logger.Logger :=
  match c with
  | CallSetLevel lvl => logger.SetLevel ToLower lvl l
  | CallSetOutput w => logger.SetOutput w l
  | CallLog lvl timestamp message => logger.log lvl timestamp message l
  end.

(** Lower case for the letters A to Z, which is what [strings.ToLower] does
    to a string of ASCII characters. *)
Definition ascii_lower (a : Ascii.ascii) : Ascii.ascii :=
  let n := Ascii.nat_of_ascii a in
  if ((65 <=? n) && (n <=? 90))%nat then Ascii.ascii_of_nat (n + 32) else a.

Fixpoint lower (s : string) : string :=
  match s with
  | EmptyString => EmptyString
  | String a rest => String (ascii_lower a) (lower rest)
  end.

(** The logger after the calls [calls] were made on [New(lvl, pfx)]. *)
Definition logged (ToLower : string → string) (lvl pfx : string)
    (calls : list LoggerCall) : logger.Logger :=
  foldl (logger_call ToLower) (logger.New ToLower lvl pfx) calls.

(** A runtime that converts like [runtime_fwd] and visits maps in the
    opposite order. *)
Definition runtime_bwd : Runtime :=
  {| range_order := λ A m, reverse (map_to_list m);
     range_order_perm := λ A m, reverse_Permutation (map_to_list m);
     int_overflow := λ _, min_int;
     int_overflow_int := λ _, eq_refl |}.

(* ===================================================================== *)
(** ** Conversions between float64 and int *)
(* ===================================================================== *)

Section Conversions.
Implicit Types (x : float64) (rt : Runtime).

Lemma float64_of_int_small n :
  Z.abs n < 2 ^ 53 → float64_of_int n = Float64 n 0.
Proof.
  intros Hn. unfold float64_of_int.
  destruct (Z.leb_spec (Z.log2 (Z.abs n) + 1) 53) as [|Hbits]; [done|].
  exfalso. destruct (Z.eq_dec (Z.abs n) 0) as [E|E].
  - rewrite E in Hbits. simpl in Hbits. lia.
  - assert (Z.log2 (Z.abs n) < 53) by (apply Z.log2_lt_pow2; lia). lia.
Qed.

Lemma float64_of_int_shifted m e :
  Z.abs m < 2 ^ 53 → 0 ≤ e →
  float64_eqb (float64_of_int (m * 2 ^ e)) (Float64 m e) = true.
Proof.
  intros Hm He. unfold float64_of_int.
  set (a := Z.abs (m * 2 ^ e)).
  destruct (Z.leb_spec (Z.log2 a + 1) 53) as [Hbits|Hbits].
  - unfold float64_eqb; cbn [mant expo]. rewrite Z.min_l by lia.
    rewrite !Z.sub_0_r, Z.pow_0_r. apply Z.eqb_eq. lia.
  - assert (Hm0 : m ≠ 0).
    { intros ->. subst a. simpl in Hbits. lia. }
    assert (Ha : a = Z.abs m * 2 ^ e).
    { subst a. rewrite Z.abs_mul. f_equal. apply Z.abs_eq.
      apply Z.pow_nonneg. lia. }
    assert (Hlog : Z.log2 a = e + Z.log2 (Z.abs m)).
    { rewrite Ha. apply Z.log2_mul_pow2; lia. }
    assert (Z.log2 (Z.abs m) < 53) by (apply Z.log2_lt_pow2; lia).
    set (sh := Z.log2 a + 1 - 53).
    assert (Hsh : 0 < sh ≤ e) by (subst sh; lia).
    assert (Hsplit : a = Z.abs m * 2 ^ (e - sh) * 2 ^ sh).
    { rewrite Ha, <- Z.mul_assoc, <- Z.pow_add_r by lia.
      f_equal. f_equal. lia. }
    assert (Hpos : 0 < 2 ^ sh) by (apply Z.pow_pos_nonneg; lia).
    assert (Hr : a mod 2 ^ sh = 0).
    { rewrite Hsplit. apply Z.mod_mul. lia. }
    assert (Hq : Z.shiftr a sh = Z.abs m * 2 ^ (e - sh)).
    { rewrite Z.shiftr_div_pow2 by lia. rewrite Hsplit. apply Z.div_mul. lia. }
    assert (Hhalf : 0 < 2 ^ (sh - 1)) by (apply Z.pow_pos_nonneg; lia).
    rewrite Hr, Hq.
    replace (2 ^ (sh - 1) <? 0) with false by (symmetry; apply Z.ltb_ge; lia).
    replace (0 =? 2 ^ (sh - 1)) with false by (symmetry; apply Z.eqb_neq; lia).
    cbn [orb andb]. unfold float64_eqb; cbn [mant expo]. fold sh.
    rewrite Z.min_l by lia.
    rewrite Z.sub_diag, Z.pow_0_r. apply Z.eqb_eq.
    rewrite Z.sgn_mul.
    rewrite (Z.sgn_pos (2 ^ e)) by (apply Z.pow_pos_nonneg; lia).
    destruct m; cbn [Z.sgn Z.abs]; lia.
Qed.

Lemma float64_of_int_expo n : 0 ≤ expo (float64_of_int n).
Proof.
  unfold float64_of_int.
  destruct (Z.leb_spec (Z.log2 (Z.abs n) + 1) 53); cbn [expo]; lia.
Qed.

Lemma integral_in_range_ok rt x :
  float64_wf x = true → float64_integral x = true →
  in_int (float64_trunc x) = true →
  float64_eqb (float64_of_int (int_of_float64 rt x)) x = true.
Proof.
  destruct x as [m e]. unfold float64_wf, float64_integral, int_of_float64.
  cbn [mant expo]. intros Hwf Hint ->.
  apply andb_prop in Hwf as [Hwf _]. apply andb_prop in Hwf as [Hm _].
  apply Z.ltb_lt in Hm. unfold float64_trunc; cbn [mant expo].
  destruct (Z.leb_spec 0 e) as [He|He].
  - by apply float64_of_int_shifted.
  - cbn [orb] in Hint. apply Z.eqb_eq in Hint.
    assert (Hp : 0 < 2 ^ (- e)) by (apply Z.pow_pos_nonneg; lia).
    apply Z.mod_divide in Hint as [k ->]; [|lia].
    rewrite Z.quot_mul by lia.
    assert (Hk : Z.abs k < 2 ^ 53).
    { rewrite Z.abs_mul, (Z.abs_eq (2 ^ (- e))) in Hm by lia. nia. }
    rewrite float64_of_int_small by done.
    unfold float64_eqb; cbn [mant expo]. rewrite Z.min_r by lia.
    rewrite Z.sub_diag, Z.pow_0_r, Z.sub_0_l. apply Z.eqb_eq. lia.
Qed.

Lemma fractional_never_ok n x :
  float64_integral x = false → float64_eqb (float64_of_int n) x = false.
Proof.
  destruct x as [m e]. unfold float64_integral; cbn [mant expo].
  intros Hfrac. apply orb_false_elim in Hfrac as [He Hmod].
  apply Z.leb_gt in He. apply Z.eqb_neq in Hmod.
  pose proof (float64_of_int_expo n) as He'.
  destruct (float64_of_int n) as [m' e']. cbn [expo] in He'.
  unfold float64_eqb; cbn [mant expo]. rewrite Z.min_r by lia.
  rewrite Z.sub_diag, Z.pow_0_r, Z.mul_1_r. apply Z.eqb_neq. intros <-.
  apply Hmod. replace (e' - e) with ((e' + 0) + - e) by lia.
  rewrite Z.pow_add_r, Z.mul_assoc by lia. apply Z.mod_mul.
  apply Z.pow_nonzero; lia.
Qed.

(** [float64(n)] never exceeds [2^63] in magnitude for an int [n]. *)
Lemma float64_of_int_bound n :
  in_int n = true →
  Z.abs (mant (float64_of_int n)) * 2 ^ expo (float64_of_int n) ≤ 2 ^ 63.
Proof.
  unfold in_int, min_int, max_int. intros Hn.
  apply andb_prop in Hn as [Hlo Hhi]. apply Z.leb_le in Hlo, Hhi.
  unfold float64_of_int. set (a := Z.abs n).
  assert (Ha : 0 ≤ a ≤ 2 ^ 63) by (subst a; lia).
  destruct (Z.leb_spec (Z.log2 a + 1) 53) as [Hbits|Hbits]; cbn [mant expo].
  - fold a. lia.
  - assert (Ha0 : 0 < a).
    { destruct (Z.eq_dec a 0) as [E|]; [|lia]. rewrite E in Hbits.
      simpl in Hbits. lia. }
    set (sh := Z.log2 a + 1 - 53). assert (Hsh : 0 < sh) by (subst sh; lia).
    pose proof (Z.log2_spec a Ha0) as [Hl Hu].
    assert (Hp : 0 < 2 ^ sh) by (apply Z.pow_pos_nonneg; lia).
    assert (Hq : Z.shiftr a sh < 2 ^ 53).
    { rewrite Z.shiftr_div_pow2 by lia. apply Z.div_lt_upper_bound; [lia|].
      rewrite <- Z.pow_add_r by lia.
      replace (sh + 53) with (Z.succ (Z.log2 a)) by (subst sh; lia). done. }
    assert (Hq0 : 0 ≤ Z.shiftr a sh).
    { rewrite Z.shiftr_div_pow2 by lia. apply Z.div_pos; lia. }
    assert (Hsgn : Z.abs (Z.sgn n) ≤ 1) by (destruct n; simpl; lia).
    rewrite Z.abs_mul.
    match goal with |- _ * Z.abs ?Q * _ ≤ _ => set (q' := Q) end.
    assert (Hq' : 0 ≤ q' ∧ q' * 2 ^ sh ≤ 2 ^ 63);
      [|rewrite (Z.abs_eq q'); nia].
    destruct (Z.eq_dec a (2 ^ 63)) as [E|E].
    + subst q' sh. rewrite E. split; apply Z.leb_le; vm_compute; reflexivity.
    + assert (Hlog : Z.log2 a < 63) by (apply Z.log2_lt_pow2; lia).
      assert (2 ^ sh ≤ 2 ^ 10) by (apply Z.pow_le_mono_r; subst sh; lia).
      subst q'. destruct (_ || _); nia.
Qed.

Lemma int_of_float64_int rt x : in_int (int_of_float64 rt x) = true.
Proof.
  unfold int_of_float64.
  destruct (in_int (float64_trunc x)) eqn:E; [done|apply int_overflow_int].
Qed.

(** Whatever an overflowing conversion yields, a number beyond [2^63] in
    magnitude does not survive the round trip through [int]. *)
Lemma beyond_range_never_ok rt x :
  2 ^ 63 < Z.abs (mant x) * 2 ^ expo x →
  float64_eqb (float64_of_int (int_of_float64 rt x)) x = false.
Proof.
  intros Hbig.
  pose proof (float64_of_int_bound _ (int_of_float64_int rt x)) as Hb.
  pose proof (float64_of_int_expo (int_of_float64 rt x)) as He'.
  destruct (float64_of_int (int_of_float64 rt x)) as [m' e'].
  destruct x as [m e]. cbn [mant expo] in *.
  assert (He : 0 ≤ e).
  { destruct (Z.leb_spec 0 e); [done|].
    rewrite (Z.pow_neg_r 2 e) in Hbig by lia.
    pose proof (Z.pow_pos_nonneg 2 63). lia. }
  unfold float64_eqb; cbn [mant expo]. apply Z.eqb_neq. intros Heq.
  set (k := Z.min e' e) in *.
  assert (Hk : 0 ≤ k ≤ e' ∧ k ≤ e) by (subst k; lia).
  assert (H1 : m' * 2 ^ e' = m' * 2 ^ (e' - k) * 2 ^ k).
  { rewrite <- Z.mul_assoc, <- Z.pow_add_r by lia. do 2 f_equal. lia. }
  assert (H2 : m * 2 ^ e = m * 2 ^ (e - k) * 2 ^ k).
  { rewrite <- Z.mul_assoc, <- Z.pow_add_r by lia. do 2 f_equal. lia. }
  assert (H3 : m' * 2 ^ e' = m * 2 ^ e) by (rewrite H1, H2, Heq; done).
  assert (H4 : Z.abs (m' * 2 ^ e') = Z.abs (m * 2 ^ e)) by (rewrite H3; done).
  rewrite !Z.abs_mul in H4.
  rewrite (Z.abs_eq (2 ^ e')), (Z.abs_eq (2 ^ e)) in H4
    by (apply Z.pow_nonneg; lia).
  lia.
Qed.

End Conversions.

(* ===================================================================== *)
(** ** The parameter validator *)
(* ===================================================================== *)

Section Validator.
Context (rt : Runtime).
Implicit Types (input schema spec : gmap string Value) (p : string).
Implicit Types (entries : list (string * Value)).

Lemma validateEntries_None input entries :
  server.validateEntries rt input entries = None ↔
  Forall (accepts rt input) entries.
Proof.
  unfold accepts. induction entries as [|[q qs] rest IH]; simpl.
  - split; [constructor|done].
  - rewrite Forall_cons; simpl.
    destruct (server.validateParameter rt input q qs); [|tauto].
    split; [done|intros [? _]; done].
Qed.

(** An error of the loop is the error of the first entry that has one. *)
Lemma validateEntries_Some input entries e :
  server.validateEntries rt input entries = Some e ↔
  ∃ before q qs after,
    entries = before ++ (q, qs) :: after ∧
    Forall (accepts rt input) before ∧
    server.validateParameter rt input q qs = Some e.
Proof.
  unfold accepts. induction entries as [|[q qs] rest IH]; simpl.
  - split; [done|]. intros (before & ? & ? & ? & E & _). by destruct before.
  - destruct (server.validateParameter rt input q qs) as [e'|] eqn:Hq.
    + split.
      * intros [= ->]. by exists [], q, qs, rest.
      * intros (before & q1 & qs1 & after & E & Hb & Hv).
        destruct before as [|[q0 qs0] before]; inversion E; subst.
        -- congruence.
        -- apply Forall_cons in Hb as [Hb _]. simpl in Hb. congruence.
    + rewrite IH. split.
      * intros (before & q1 & qs1 & after & -> & Hb & Hv).
        exists ((q, qs) :: before), q1, qs1, after.
        split_and!; [done| |done]. by constructor.
      * intros (before & q1 & qs1 & after & E & Hb & Hv).
        destruct before as [|[q0 qs0] before]; inversion E; subst.
        -- congruence.
        -- apply Forall_cons in Hb as [_ Hb]. by exists before, q1, qs1, after.
Qed.

Lemma elem_of_range_order {A} (m : gmap string A) k v :
  (k, v) ∈ range_order rt m ↔ m !! k = Some v.
Proof. by rewrite range_order_perm, elem_of_map_to_list. Qed.

Lemma range_order_empty {A} : range_order rt (∅ : gmap string A) = [].
Proof.
  apply Permutation_nil_r. rewrite range_order_perm.
  by rewrite map_to_list_empty.
Qed.

Lemma range_order_singleton {A} k (v : A) :
  range_order rt ({[ k := v ]} : gmap string A) = [(k, v)].
Proof.
  apply Permutation_singleton_r. rewrite range_order_perm.
  by rewrite map_to_list_singleton.
Qed.

(** The validator accepts exactly when every declared parameter does. *)
Lemma validateParameters_None input schema :
  server.validateParameters rt input schema = None ↔
  ∀ q qs, schema !! q = Some qs →
    server.validateParameter rt input q qs = None.
Proof.
  unfold server.validateParameters. rewrite validateEntries_None, Forall_forall.
  split.
  - intros H q qs Hq. by apply (H (q, qs)), elem_of_range_order.
  - intros H [q qs] Hq. by apply H, elem_of_range_order.
Qed.

(** An error of the validator is the error of some declared parameter. *)
Lemma validateParameters_Some input schema e :
  server.validateParameters rt input schema = Some e →
  ∃ q qs, schema !! q = Some qs ∧
    server.validateParameter rt input q qs = Some e.
Proof.
  unfold server.validateParameters. rewrite validateEntries_Some.
  intros (before & q & qs & after & E & _ & Hv). exists q, qs. split; [|done].
  apply elem_of_range_order. rewrite E. set_solver.
Qed.

(** One rejected parameter is enough for the validator to reject. *)
Lemma validateParameters_rejects input schema q qs e :
  schema !! q = Some qs →
  server.validateParameter rt input q qs = Some e →
  is_Some (server.validateParameters rt input schema).
Proof.
  intros Hq Hv.
  destruct (server.validateParameters rt input schema) eqn:E; [done|].
  rewrite validateParameters_None in E. specialize (E _ _ Hq). congruence.
Qed.

(** The check of a parameter reads the input at that parameter only. *)
Lemma validateParameter_insert_ne input k v p ps :
  k ≠ p →
  server.validateParameter rt (<[k := v]> input) p ps =
  server.validateParameter rt input p ps.
Proof.
  intros Hne. unfold server.validateParameter.
  by rewrite lookup_insert_ne.
Qed.

Lemma validateEntries_ext input1 input2 entries :
  Forall (λ kv, server.validateParameter rt input1 kv.1 kv.2 =
                server.validateParameter rt input2 kv.1 kv.2) entries →
  server.validateEntries rt input1 entries =
  server.validateEntries rt input2 entries.
Proof.
  induction 1 as [|[q qs] rest Hq _ IH]; simpl in *; [done|].
  by rewrite Hq, IH.
Qed.

End Validator.


Section IntegerCheck.
Context (rt : Runtime).
Implicit Types (input schema spec : gmap string Value) (p : string).

(** The integer case of the type switch, for a parameter that is present. *)
Lemma validateParameter_integer input p spec v :
  spec !! "type" = Some (VString "integer") →
  input !! p = Some v →
  server.validateParameter rt input p (VObject spec) =
  match as_float64 v with
  | Some num =>
    if float64_eqb (float64_of_int (int_of_float64 rt num)) num then None
    else Some ("parameter " +:+ p +:+ " must be an integer")
  | None => Some ("parameter " +:+ p +:+ " must be an integer")
  end.
Proof.
  intros Hty Hv. unfold server.validateParameter. cbn [as_object].
  rewrite Hty, Hv. cbn [mbind option_bind as_string default].
  rewrite bool_decide_eq_true_2 by eauto.
  by rewrite andb_false_r.
Qed.

(** C3, as amended.  For a parameter declared with type "integer" and
    present in the input: a float64 with a zero fractional part whose
    integral part fits in an int (from -2^63 to 2^63-1) passes; a float64
    with a nonzero fractional part fails; a float64 of magnitude above 2^63
    fails although its fractional part is zero; a string fails.  Each
    failure is the error "parameter <name> must be an integer" of that
    parameter and makes the validator reject the input. *)
Theorem C3_integer_type_check input schema p spec v :
  schema !! p = Some (VObject spec) →
  spec !! "type" = Some (VString "integer") →
  input !! p = Some v →
  let verdict := server.validateParameter rt input p (VObject spec) in
  let rejected :=
    verdict = Some ("parameter " +:+ p +:+ " must be an integer") ∧
    is_Some (server.validateParameters rt input schema) in
  (∀ x, v = VNumber x → float64_wf x = true →
        float64_integral x = true → in_int (float64_trunc x) = true →
        verdict = None) ∧
  (∀ x, v = VNumber x → float64_integral x = false → rejected) ∧
  (∀ x, v = VNumber x → 2 ^ 63 < Z.abs (mant x) * 2 ^ expo x → rejected) ∧
  (∀ s, v = VString s → rejected).
Proof.
  intros Hp Hty Hv verdict rejected.
  assert (Hrej : verdict = Some ("parameter " +:+ p +:+ " must be an integer")
                 → rejected).
  { intros E. split; [done|]. by eapply validateParameters_rejects. }
  subst verdict. rewrite (validateParameter_integer _ _ _ _ Hty Hv) in *.
  split_and!.
  - intros x -> Hwf Hint Hrange. cbn [as_float64].
    by rewrite integral_in_range_ok.
  - intros x -> Hfrac. apply Hrej. cbn [as_float64].
    by rewrite fractional_never_ok.
  - intros x -> Hbig. apply Hrej. cbn [as_float64].
    by rewrite beyond_range_never_ok.
  - intros s ->. by apply Hrej.
Qed.

End IntegerCheck.

(** 5.0 passes the integer check. *)
Lemma C3_witness :
  server.validateParameter runtime_fwd (input_n (VNumber float_5)) "n"
    (VObject integer_spec) = None.
Proof.
  refine (proj1 (C3_integer_type_check runtime_fwd
                   (input_n (VNumber float_5)) integer_schema "n"
                   integer_spec (VNumber float_5) _ _ _)
            float_5 eq_refl _ _ _);
    vm_compute; reflexivity.
Defined.

(** The boundary of the specification: against an integer parameter 5.0
    passes, 5.5 fails and "5" fails, on every runtime. *)
Lemma integer_boundary rt :
  server.validateParameters rt (input_n (VNumber float_5)) integer_schema
    = None ∧
  server.validateParameters rt (input_n (VNumber float_5_5)) integer_schema
    = Some "parameter n must be an integer" ∧
  server.validateParameters rt (input_n (VString "5")) integer_schema
    = Some "parameter n must be an integer".
Proof.
  unfold server.validateParameters, integer_schema.
  rewrite range_order_singleton. cbn [server.validateEntries].
  split_and!.
  - rewrite (validateParameter_integer rt _ _ _ (VNumber float_5));
      [|vm_compute; reflexivity..].
    cbn [as_float64]. rewrite integral_in_range_ok; [done|vm_compute; reflexivity..].
  - rewrite (validateParameter_integer rt _ _ _ (VNumber float_5_5));
      [|vm_compute; reflexivity..].
    cbn [as_float64]. rewrite fractional_never_ok; [done|vm_compute; reflexivity].
  - rewrite (validateParameter_integer rt _ _ _ (VString "5"));
      [done|vm_compute; reflexivity..].
Qed.

(** 1e19 has a zero fractional part and is rejected, whatever the runtime
    makes of the overflowing conversion. *)
Lemma C3_counterexample :
  (float64_wf float_1e19 = true ∧ float64_integral float_1e19 = true) ∧
  ∀ rt, server.validateParameters rt (input_n (VNumber float_1e19))
          integer_schema = Some "parameter n must be an integer".
Proof.
  split; [by vm_compute|]. intros rt.
  unfold server.validateParameters, integer_schema.
  rewrite range_order_singleton. cbn [server.validateEntries].
  rewrite (validateParameter_integer rt _ _ _ (VNumber float_1e19));
    [|by vm_compute..].
  cbn [as_float64]. rewrite beyond_range_never_ok; [done|].
  apply Z.ltb_lt. by vm_compute.
Qed.

(* ===================================================================== *)
(** ** The dispatcher *)
(* ===================================================================== *)

Section Dispatcher.
Context (rt : Runtime).
Implicit Types (s : server.MCPServer) (r : http.Request).
Implicit Types (req : api.MCPRequest) (h : api.Handler) (σ : server.Exchange).
Implicit Types (input schema spec : gmap string Value) (p q e : string).

Lemma validateParameter_missing input p spec :
  spec !! "required" = Some (VBool true) →
  input !! p = None →
  server.validateParameter rt input p (VObject spec) =
  Some ("required parameter missing: " +:+ p).
Proof.
  intros Hreq Hp. unfold server.validateParameter. cbn [as_object].
  rewrite Hreq, Hp. cbn [mbind option_bind as_bool default].
  rewrite bool_decide_eq_false_2; [done|]. by intros [? ?].
Qed.

Lemma validateParameter_error_names input q qs e :
  server.validateParameter rt input q qs = Some e → error_names q e.
Proof.
  unfold server.validateParameter, error_names.
  destruct (as_object qs) as [spec|]; [|done].
  destruct (_ && _); [intros [= <-]; by left|].
  destruct (input !! q) as [v|]; [|done].
  repeat (match goal with
          | |- context [if String.eqb ?a ?b then _ else _] =>
            destruct (String.eqb a b)
          | |- context [match ?o with Some _ => _ | None => _ end] =>
            destruct o
          | |- context [if ?c then None else _] => destruct c
          end; try done);
    intros [= <-]; right; eexists; reflexivity.
Qed.

(** What [HandleRun] does with a dispatched request. *)
Lemma HandleRun_dispatched s r req h σ :
  dispatched s r req h →
  server.HandleRun rt s r σ =
  match server.validateParameters rt (api.Input req) (schema_of s req) with
  | Some e =>
    server.on_writer
      (server.sendErrorResponse ("Parameter validation failed: " +:+ e)
         http.StatusBadRequest) σ
  | None =>
    let ret := api.HandleRequest h req in
    let σ' := (server.call h req σ).2 in
    match api.err ret with
    | Some e =>
      server.on_writer
        (server.sendErrorResponse e http.StatusInternalServerError) σ'
    | None => server.on_writer (server.sendSuccessResponse (api.result ret)) σ'
    end
  end.
Proof.
  intros (Hm & Hb & Hn & Hh). unfold server.HandleRun, schema_of.
  rewrite Hm, Hb. cbn [String.eqb negb].
  replace (String.eqb http.MethodPost http.MethodPost) with true by done.
  cbn [negb]. apply String.eqb_neq in Hn. rewrite Hn, Hh.
  destruct (server.validateParameters _ _ _); [done|].
  by unfold server.supportStreamingResponse.
Qed.


(** A parameter the input conforms to is accepted. *)
Lemma conforms_accepts input schema q qs :
  conforms input schema → schema !! q = Some qs →
  server.validateParameter rt input q qs = None.
Proof.
  intros Hc Hq. unfold server.validateParameter.
  destruct qs as [| | | | |spec]; try done. cbn [as_object].
  destruct (Hc q spec Hq) as [Hreq Hty].
  destruct (input !! q) as [v|] eqn:Hv.
  - rewrite bool_decide_eq_true_2, andb_false_r by eauto.
    specialize (Hty v).
    destruct (spec !! "type") as [[| | |ty| |]|]; try done.
    cbn [mbind option_bind as_string default]. unfold id.
    specialize (Hty ty eq_refl eq_refl). revert Hty. unfold spec_has_type.
    destruct (String.eqb ty ""); [done|].
    repeat (destruct (String.eqb ty _);
            [destruct v; try done; cbn [as_float64];
             rewrite ?andb_true_iff; intros; destruct_and?;
             by rewrite ?integral_in_range_ok|]).
    done.
  - rewrite bool_decide_eq_false_2, andb_true_r by (by intros [? ?]).
    destruct (spec !! "required") as [[|[]| | | |]|]; try done.
    by destruct Hreq.
Qed.

(** C2, as amended.  When the schema declares a required parameter [p]
    that the input lacks, the validator fails: its error is the one of the
    first declared parameter, in the order the schema is visited, that
    violates its declaration (every parameter visited before it is in
    order), and it names that parameter.  The error is
    "required parameter missing: p" when every parameter visited before [p]
    is in order, so in particular when no other declared parameter is
    violated.  POST /v1/run answers such a request with status 400 and one
    error envelope whose message is "Parameter validation failed: "
    followed by the validator's error, without calling the handler.  When
    every required parameter is present and every declared parameter that
    is present has its declared type, the validation succeeds. *)
Theorem C2_required_parameters input schema :
  (∀ p spec,
     schema !! p = Some (VObject spec) →
     spec !! "required" = Some (VBool true) →
     input !! p = None →
     ∃ e,
       server.validateParameters rt input schema = Some e ∧
       (∃ before q qs after,
          range_order rt schema = before ++ (q, qs) :: after ∧
          Forall (accepts rt input) before ∧
          schema !! q = Some qs ∧
          server.validateParameter rt input q qs = Some e ∧
          error_names q e) ∧
       (∀ before after,
          range_order rt schema = before ++ (p, VObject spec) :: after →
          Forall (accepts rt input) before →
          e = "required parameter missing: " +:+ p) ∧
       ((∀ q qs, q ≠ p → schema !! q = Some qs → accepts rt input (q, qs)) →
          e = "required parameter missing: " +:+ p) ∧
       (∀ s r req h flusher now,
          dispatched s r req h →
          api.Input req = input → schema_of s req = schema →
          let σ :=
            server.HandleRun rt s r
              (server.Start_exchange (http.NewWriter flusher) now) in
          http.Code (server.Writer σ) = Some http.StatusBadRequest ∧
          http.Written (server.Writer σ) =
            [http.DError
               {| api.Message := "Parameter validation failed: " +:+ e;
                  api.Code := "" |}] ∧
          server.Invoked σ = [])) ∧
  (conforms input schema → server.validateParameters rt input schema = None).
Proof.
  split.
  - intros p spec Hp Hreq Hmiss.
    pose proof (validateParameter_missing input p spec Hreq Hmiss) as Hv.
    destruct (validateParameters_rejects rt _ _ _ _ _ Hp Hv) as [e He].
    exists e. split_and!; [done|..].
    + pose proof He as Hfirst. unfold server.validateParameters in Hfirst.
      apply validateEntries_Some in Hfirst
        as (before & q & qs & after & Hsplit & Hbefore & Hqv).
      exists before, q, qs, after. split; [done|]. split; [done|].
      split; [|split; [done|by eapply validateParameter_error_names]].
      apply (proj1 (elem_of_range_order rt schema q qs)).
      rewrite Hsplit. set_solver.
    + intros before after Hsplit Hbefore.
      assert (server.validateParameters rt input schema =
              Some ("required parameter missing: " +:+ p)) as He'.
      { unfold server.validateParameters. apply validateEntries_Some.
        by exists before, p, (VObject spec), after. }
      congruence.
    + intros Hothers.
      destruct (validateParameters_Some rt _ _ _ He) as (q & qs & Hq & Hqv).
      destruct (decide (q = p)) as [->|Hne].
      * congruence.
      * specialize (Hothers q qs Hne Hq). unfold accepts in Hothers.
        simpl in Hothers. congruence.
    + intros s r req h flusher now Hd Hin Hsch σ. subst σ.
      rewrite (HandleRun_dispatched s r req h _ Hd), Hin, Hsch, He. done.
  - intros Hc. apply validateParameters_None. intros q qs Hq.
    by eapply conforms_accepts.
Qed.

(** C4.  The validator reads the input only at the names its schema
    declares: putting any value under an undeclared key, or taking an
    undeclared key away, leaves the result of the validation as it was, and
    a schema that declares nothing accepts every input: a request for a
    tool registered without parameters reaches the handler as it was
    sent. *)
Theorem C4_undeclared_keys_pass input :
  (∀ schema k v, schema !! k = None →
     server.validateParameters rt (<[k := v]> input) schema =
     server.validateParameters rt input schema) ∧
  (∀ schema k, schema !! k = None →
     server.validateParameters rt (delete k input) schema =
     server.validateParameters rt input schema) ∧
  server.validateParameters rt input ∅ = None ∧
  (∀ s r req h flusher now,
     dispatched s r req h → api.Input req = input → schema_of s req = ∅ →
     server.Invoked
       (server.HandleRun rt s r
          (server.Start_exchange (http.NewWriter flusher) now)) =
     [(h, req)]).
Proof.
  assert (Hempty : server.validateParameters rt input ∅ = None).
  { unfold server.validateParameters. by rewrite range_order_empty. }
  split_and!.
  - intros schema k v Hk. unfold server.validateParameters.
    apply validateEntries_ext, Forall_forall. intros [q qs] Hq. simpl.
    apply elem_of_range_order in Hq.
    apply validateParameter_insert_ne. congruence.
  - intros schema k Hk. unfold server.validateParameters.
    apply validateEntries_ext, Forall_forall. intros [q qs] Hq. simpl.
    apply elem_of_range_order in Hq. unfold server.validateParameter.
    rewrite lookup_delete_ne; [done|congruence].
  - done.
  - intros s r req h flusher now Hd Hin Hsch.
    rewrite (HandleRun_dispatched s r req h _ Hd), Hin, Hsch, Hempty.
    simpl. by destruct (api.err _).
Qed.



(** C8.  A dispatched request that passes the validation makes exactly one
    call, to the handler of the named tool with the decoded request, and
    writes exactly one document: the final envelope of the handler's
    result, or the error envelope of the handler's error.  No partial
    envelope is written, and [supportStreamingResponse] is false for every
    handler. *)
Theorem C8_one_call_one_frame s r req h flusher now :
  dispatched s r req h →
  server.validateParameters rt (api.Input req) (schema_of s req) = None →
  let σ :=
    server.HandleRun rt s r
      (server.Start_exchange (http.NewWriter flusher) now) in
  let ret := api.HandleRequest h req in
  server.Invoked σ = [(h, req)] ∧
  http.Written (server.Writer σ) =
    [match api.err ret with
     | Some e => http.DError {| api.Message := e; api.Code := "" |}
     | None => http.DFinal {| api.Result := api.result ret |}
     end] ∧
  (∀ part, http.DPartial part ∉ http.Written (server.Writer σ)) ∧
  (∀ h', server.supportStreamingResponse h' = false).
Proof.
  intros Hd Hv σ ret. subst σ.
  rewrite (HandleRun_dispatched s r req h _ Hd), Hv. cbn zeta. fold ret.
  destruct (api.err ret) as [e|]; (split_and!; [done..| |done]);
    intros part Hin; apply list_elem_of_singleton in Hin; discriminate.
Qed.

(** C6, what the code does.  The handler of a dispatched and validated
    request is called with the request alone and runs to its end: the
    response is the one the handler's return decides, and it is written
    when the handler returns, [millis] after the start, whatever the
    request's timeout and the deadline of the caller's context are. *)
Theorem C6_deadline_not_enforced s r req h flusher now :
  dispatched s r req h →
  server.validateParameters rt (api.Input req) (schema_of s req) = None →
  let σ :=
    server.HandleRun rt s r
      (server.Start_exchange (http.NewWriter flusher) now) in
  let ret := api.HandleRequest h req in
  server.Clock σ = now + api.millis ret ∧
  http.Written (server.Writer σ) =
    [match api.err ret with
     | Some e => http.DError {| api.Message := e; api.Code := "" |}
     | None => http.DFinal {| api.Result := api.result ret |}
     end].
Proof.
  intros Hd Hv σ ret. subst σ.
  rewrite (HandleRun_dispatched s r req h _ Hd), Hv. cbn zeta. fold ret.
  by destruct (api.err ret).
Qed.

End Dispatcher.

(** An input with a key the schema does not declare. *)
Lemma C4_witness :
  server.validateParameters runtime_fwd
    (<["extra" := VString "x"]> (input_n (VNumber float_5))) integer_schema =
  server.validateParameters runtime_fwd (input_n (VNumber float_5))
    integer_schema.
Proof.
  apply (proj1 (C4_undeclared_keys_pass runtime_fwd
                  (input_n (VNumber float_5)))).
  vm_compute; reflexivity.
Defined.

(** The "Echo" tool called without its required "msg". *)
Lemma C2_witness :
  ∃ e,
    server.validateParameters runtime_fwd ∅
      (api.Parameters echo_definition) = Some e ∧
    e = "required parameter missing: msg".
Proof.
  assert (Hdecl : api.Parameters echo_definition !! "msg" =
                  Some (VObject required_string)) by (vm_compute; reflexivity).
  assert (Hreq : required_string !! "required" = Some (VBool true))
    by (vm_compute; reflexivity).
  assert (Hmiss : (∅ : gmap string Value) !! "msg" = None)
    by (vm_compute; reflexivity).
  destruct (proj1 (C2_required_parameters runtime_fwd ∅
                     (api.Parameters echo_definition))
              "msg" required_string Hdecl Hreq Hmiss)
    as (e & He & _ & _ & Honly & _).
  exists e. split; [exact He|]. apply Honly.
  intros q qs Hne Hq. exfalso. apply Hne.
  unfold echo_definition in Hq. cbn [api.Parameters] in Hq.
  apply lookup_singleton_Some in Hq as [? _]. done.
Defined.

(** Two required parameters are missing and the error names the one the
    runtime visits first, whichever of the two is asked for; an optional
    parameter of the wrong type fails the validation although no required
    parameter is missing. *)
Lemma C2_counterexample :
  (two_required !! "first" = Some (VObject required_only) ∧
   server.validateParameters runtime_fwd ∅ two_required =
     Some "required parameter missing: second") ∧
  (two_required !! "second" = Some (VObject required_only) ∧
   server.validateParameters runtime_rev ∅ two_required =
     Some "required parameter missing: first") ∧
  (integer_spec !! "required" = None ∧
   ∀ rt, server.validateParameters rt (input_n (VString "5")) integer_schema =
     Some "parameter n must be an integer").
Proof.
  split_and!.
  - vm_compute; reflexivity.
  - vm_compute; reflexivity.
  - vm_compute; reflexivity.
  - vm_compute; reflexivity.
  - vm_compute; reflexivity.
  - intros rt. unfold server.validateParameters, integer_schema.
    rewrite range_order_singleton. cbn [server.validateEntries].
    rewrite (validateParameter_integer rt _ _ _ (VString "5"));
      [reflexivity|vm_compute; reflexivity..].
Qed.


(** The echo of the specification's example: one call, one final
    envelope. *)
Lemma C8_witness :
  server.Invoked
    (server.HandleRun runtime_fwd echo_server
       (post_run (mcp_request "Echo" {[ "msg" := VString "hi" ]} 0))
       (server.Start_exchange (http.NewWriter true) 0)) =
  [(echo_handler, mcp_request "Echo" {[ "msg" := VString "hi" ]} 0)].
Proof.
  refine (proj1 (C8_one_call_one_frame runtime_fwd echo_server
                   (post_run (mcp_request "Echo" {[ "msg" := VString "hi" ]} 0))
                   (mcp_request "Echo" {[ "msg" := VString "hi" ]} 0)
                   echo_handler true 0 _ _)).
  - split_and!; [reflexivity|reflexivity|discriminate|vm_compute; reflexivity].
  - vm_compute; reflexivity.
Defined.

(** A request with a timeout of 100 ms to a handler that takes 5000 ms is
    answered after 5000 ms, with the handler's result. *)
Lemma C6_witness :
  let σ :=
    server.HandleRun runtime_fwd sample_server
      (post_run (mcp_request "Slow" ∅ 100))
      (server.Start_exchange (http.NewWriter true) 0) in
  server.Clock σ = 5000 ∧
  http.Written (server.Writer σ) =
    [http.DFinal {| api.Result := VString "done" |}].
Proof.
  refine (C6_deadline_not_enforced runtime_fwd sample_server
            (post_run (mcp_request "Slow" ∅ 100))
            (mcp_request "Slow" ∅ 100) slow_handler true 0 _ _).
  - split_and!; [reflexivity|reflexivity|discriminate|vm_compute; reflexivity].
  - vm_compute; reflexivity.
Defined.

(* ===================================================================== *)
(** ** The tool registry and the handler map *)
(* ===================================================================== *)

Section Registry.
Context (rt : Runtime).
Implicit Types (r : api.BasicToolRegistry) (d tool : api.ToolDefinition).
Implicit Types (defs : list api.ToolDefinition) (cs : list Setup).

(** [ListTools] returns the values of the map, in the order of the visit. *)
Lemma ListTools_values r :
  api.ListTools rt r = (range_order rt (api.tools r)).*2.
Proof.
  unfold api.ListTools.
  assert (H : ∀ (l : list (string * api.ToolDefinition)) acc,
    foldl (λ tools kv, tools ++ [kv.2]) acc l = acc ++ l.*2).
  { induction l as [|kv l IH]; intros acc; simpl.
    - by rewrite app_nil_r.
    - by rewrite IH, <- app_assoc. }
  by rewrite H.
Qed.

Lemma registered_snoc defs d :
  registered (defs ++ [d]) = api.RegisterTool d (registered defs).
Proof. unfold registered. by rewrite foldl_app. Qed.

(** Every definition is stored under its own name. *)
Lemma registered_keyed defs k tool :
  api.tools (registered defs) !! k = Some tool → api.Name tool = k.
Proof.
  revert k tool. induction defs as [|d defs IH] using rev_ind; intros k tool.
  - unfold registered. simpl. by rewrite lookup_empty.
  - rewrite registered_snoc. cbn [api.RegisterTool api.tools].
    rewrite lookup_insert. case_decide; [congruence|apply IH].
Qed.

(** C1.  On a registry reached by any sequence of registrations, after
    [RegisterTool(d)] the lookup of [d]'s name finds [d], and the list of
    all tools holds exactly one definition of that name, whether or not
    the name was registered before. *)
Theorem C1_register_then_lookup defs d :
  let r := api.RegisterTool d (registered defs) in
  api.GetTool r (api.Name d) = (d, true) ∧
  length (filter (λ tool, api.Name tool = api.Name d) (api.ListTools rt r))
    = 1%nat.
Proof.
  intros r. subst r. split.
  - unfold api.GetTool. cbn [api.RegisterTool api.tools].
    by rewrite lookup_insert_eq.
  - rewrite ListTools_values. cbn [api.RegisterTool api.tools].
    set (m := api.tools (registered defs)).
    assert (Hperm : (range_order rt (<[api.Name d := d]> m)).*2 ≡ₚ
                    d :: (map_to_list (delete (api.Name d) m)).*2).
    { rewrite range_order_perm, <- insert_delete_eq.
      rewrite map_to_list_insert by apply lookup_delete_eq. done. }
    rewrite Hperm, filter_cons_True by done. simpl. f_equal.
    destruct (filter _ _) as [|tool rest] eqn:E; [done|]. exfalso.
    assert (Hin : tool ∈ tool :: rest) by left. rewrite <- E in Hin.
    apply list_elem_of_filter in Hin as [Hname Hin].
    apply list_elem_of_fmap in Hin as ([k tool'] & -> & Hin).
    apply elem_of_map_to_list in Hin. simpl in Hname.
    apply lookup_delete_Some in Hin as [Hne Hin].
    apply registered_keyed in Hin. congruence.
Qed.

Lemma configured_snoc cs c : configured (cs ++ [c]) = setup (configured cs) c.
Proof. unfold configured. by rewrite foldl_app. Qed.

Lemma configured_dom cs :
  dom (server.handlers (configured cs)) =
  dom (api.tools (server.registry (configured cs))).
Proof.
  induction cs as [|c cs IH] using rev_ind; [done|].
  rewrite configured_snoc. destruct c as [definition handler|checker];
    cbn [setup server.RegisterTool server.RegisterServiceChecker
         server.handlers server.registry api.RegisterTool api.tools];
    [|done].
  by rewrite !dom_insert_L, IH.
Qed.

Lemma configured_keyed cs k tool :
  api.tools (server.registry (configured cs)) !! k = Some tool →
  api.Name tool = k.
Proof.
  revert k tool. induction cs as [|c cs IH] using rev_ind; intros k tool.
  - unfold configured. simpl. by rewrite lookup_empty.
  - rewrite configured_snoc. destruct c as [definition handler|checker];
      cbn [setup server.RegisterTool server.RegisterServiceChecker
           server.handlers server.registry api.RegisterTool api.tools].
    + rewrite lookup_insert. case_decide; [congruence|apply IH].
    + apply IH.
Qed.

(** C10.  After any sequence of registrations on a new server, the handler
    map and the registry hold the same names: a name has a handler exactly
    when [GetTool] finds a definition for it, and that definition carries
    the name. *)
Theorem C10_handlers_match_registry cs :
  let s := configured cs in
  dom (server.handlers s) = dom (api.tools (server.registry s)) ∧
  ∀ name,
    (is_Some (server.handlers s !! name) ↔
     (api.GetTool (server.registry s) name).2 = true) ∧
    ((api.GetTool (server.registry s) name).2 = true →
     api.Name (api.GetTool (server.registry s) name).1 = name).
Proof.
  intros s. subst s. split; [apply configured_dom|].
  intros name. unfold api.GetTool. split.
  - rewrite <- elem_of_dom, configured_dom, elem_of_dom.
    destruct (api.tools _ !! name); simpl; split; (done || by intros []).
  - destruct (api.tools _ !! name) eqn:E; simpl; [|done].
    intros _. by eapply configured_keyed.
Qed.

End Registry.

(* ===================================================================== *)
(** ** The health endpoints and the method checks *)
(* ===================================================================== *)

Section Health.
Implicit Types (s : server.MCPServer) (r : http.Request).
Implicit Types (c : server.ServiceChecker) (cs : list server.ServiceChecker).
Implicit Types (results : gmap string string) (σ : server.Exchange).

(** The loop of [HandleServiceHealth], one checker after the other. *)
Lemma checkService_foldl cs results allHealthy σ :
  foldl server.checkService (results, allHealthy, σ) cs =
  (foldl (λ res c, <[server.Name c := report c]> res) results cs,
   allHealthy && forallb (λ c, bool_decide (server.Check c = None)) cs,
   {| server.Writer := server.Writer σ; server.Invoked := server.Invoked σ;
      server.Probed := server.Probed σ ++ cs; server.Clock := server.Clock σ |}).
Proof.
  revert results allHealthy σ.
  induction cs as [|c cs IH]; intros results allHealthy σ; simpl.
  - rewrite andb_true_r, app_nil_r. by destruct σ.
  - unfold report at 2. destruct (server.Check c) as [msg|] eqn:E;
      rewrite IH; simpl.
    + by rewrite andb_false_r, <- app_assoc.
    + by rewrite <- app_assoc.
Qed.

Lemma reports_dom cs results :
  dom (foldl (λ res c, <[server.Name c := report c]> res) results cs) =
  dom results ∪ list_to_set (server.Name <$> cs).
Proof.
  revert results. induction cs as [|c cs IH]; intros results; simpl.
  - set_solver.
  - rewrite IH, dom_insert_L. set_solver.
Qed.

(** The entry of a name is the report of the last checker of that name. *)
Lemma reports_last before c after results :
  (∀ c', c' ∈ after → server.Name c' ≠ server.Name c) →
  foldl (λ res c, <[server.Name c := report c]> res) results
    (before ++ c :: after) !! server.Name c = Some (report c).
Proof.
  intros Hafter. rewrite foldl_app. simpl.
  generalize (foldl (λ res c0, <[server.Name c0 := report c0]> res)
                results before). intros res.
  assert (Hc : <[server.Name c := report c]> res !! server.Name c
               = Some (report c)) by apply lookup_insert_eq.
  revert Hc. generalize (<[server.Name c := report c]> res). clear res.
  induction after as [|c' after IH]; intros res Hres; simpl; [done|].
  apply IH.
  - intros c'' Hin. apply Hafter. by right.
  - rewrite lookup_insert_ne; [done|]. apply Hafter. by left.
Qed.

Lemma forallb_healthy cs :
  forallb (λ c, bool_decide (server.Check c = None)) cs = true ↔
  ∀ c, c ∈ cs → server.Check c = None.
Proof.
  rewrite forallb_forall. split.
  - intros H c Hc. apply list_elem_of_In in Hc.
    by apply H, bool_decide_eq_true in Hc.
  - intros H c Hc. apply bool_decide_eq_true, H. by apply list_elem_of_In.
Qed.

(** C9.  GET /v1/service-health probes every registered checker once, in
    order, and writes one report whose entries are the names of the
    checkers.  The entry of a name is "healthy" or "unhealthy: <detail>"
    as the last checker of that name returned nil or an error, hence as
    each checker returned when the names are distinct.  The status is
    "degraded" with code 503 when some checker returned an error, and "ok"
    with code 200 when none did. *)
Theorem C9_service_health s r flusher now :
  http.Method r = http.MethodGet →
  let σ :=
    server.HandleServiceHealth s r
      (server.Start_exchange (http.NewWriter flusher) now) in
  let cs := server.serviceCheckers s in
  server.Probed σ = cs ∧
  ∃ status results,
    http.Written (server.Writer σ) = [http.DServiceHealth status results] ∧
    dom results = list_to_set (server.Name <$> cs) ∧
    (∀ before c after, cs = before ++ c :: after →
       (∀ c', c' ∈ after → server.Name c' ≠ server.Name c) →
       results !! server.Name c = Some (report c)) ∧
    (NoDup (server.Name <$> cs) →
       ∀ c, c ∈ cs → results !! server.Name c = Some (report c)) ∧
    ((∃ c, c ∈ cs ∧ is_Some (server.Check c)) →
       status = "degraded" ∧
       http.Code (server.Writer σ) = Some http.StatusServiceUnavailable) ∧
    ((∀ c, c ∈ cs → server.Check c = None) →
       status = "ok" ∧ http.Code (server.Writer σ) = Some http.StatusOK).
Proof.
  intros Hm σ cs. subst σ. unfold server.HandleServiceHealth.
  rewrite Hm. replace (String.eqb http.MethodGet http.MethodGet) with true by done.
  cbn [negb]. rewrite checkService_foldl. fold cs. cbn [andb].
  set (ok := forallb _ cs).
  set (results := foldl _ ∅ cs).
  split; [done|].
  exists (if ok then "ok" else "degraded"), results.
  assert (Hlast : ∀ before c after, cs = before ++ c :: after →
    (∀ c', c' ∈ after → server.Name c' ≠ server.Name c) →
    results !! server.Name c = Some (report c)).
  { intros before c after E Hafter. subst results. rewrite E.
    by apply reports_last. }
  split_and!.
  - by destruct ok.
  - subst results. rewrite reports_dom. set_solver.
  - done.
  - intros Hnd c Hc. apply list_elem_of_split in Hc as (before & after & E).
    apply (Hlast before c after E). intros c' Hc' Heq.
    rewrite E, fmap_app, fmap_cons in Hnd.
    apply NoDup_app in Hnd as (_ & _ & Hnd). apply NoDup_cons in Hnd as [Hnd _].
    apply Hnd. rewrite <- Heq. by apply list_elem_of_fmap_2.
  - intros (c & Hc & Herr).
    assert (ok = false) as ->; [|by destruct flusher].
    destruct ok eqn:E; [|done]. subst ok.
    rewrite forallb_healthy in E. rewrite (E c Hc) in Herr. by destruct Herr.
  - intros Hall. assert (ok = true) as ->; [|by destruct flusher].
    subst ok. by apply forallb_healthy.
Qed.

(** C7, what the code does.  Of the four routes the server registers,
    "/health" answers a request of any method with status 200 and
    [{"status":"ok"}]; each of the three others answers a request whose
    method is not the endpoint's with status 405 and the error envelope
    "Method not allowed". *)
Theorem C7_method_checks rt s r flusher now path handle :
  (path, handle) ∈ server.routes rt s →
  let σ := handle r (server.Start_exchange (http.NewWriter flusher) now) in
  if String.eqb path "/health" then
    http.Code (server.Writer σ) = Some http.StatusOK ∧
    http.Written (server.Writer σ) = [http.DStatus "ok"]
  else
    http.Method r ≠ endpoint_method path →
    http.Code (server.Writer σ) = Some http.StatusMethodNotAllowed ∧
    http.Written (server.Writer σ) =
      [http.DError {| api.Message := "Method not allowed";
                      api.Code := "" |}].
Proof.
  unfold server.routes. rewrite !elem_of_cons, elem_of_nil.
  intros [E|[E|[E|[E|[]]]]]; injection E as -> ->; cbn zeta.
  - done.
  - intros Hm%String.eqb_neq. unfold server.HandleRun.
    change (endpoint_method "/v1/run") with http.MethodPost in Hm.
    by rewrite Hm.
  - intros Hm%String.eqb_neq. unfold server.HandleListTools.
    change (endpoint_method "/v1/tools") with http.MethodGet in Hm.
    by rewrite Hm.
  - intros Hm%String.eqb_neq. unfold server.HandleServiceHealth.
    change (endpoint_method "/v1/service-health") with http.MethodGet in Hm.
    by rewrite Hm.
Qed.

End Health.

(** The example of the specification: "A" healthy, "B" down. *)
Lemma C9_witness :
  server.Probed
    (server.HandleServiceHealth checked_server get_request
       (server.Start_exchange (http.NewWriter true) 0)) =
  [checker_A; checker_B].
Proof.
  exact (proj1 (C9_service_health checked_server get_request true 0
                  eq_refl)).
Defined.

(** POST /health is answered with 200. *)
Lemma C7_witness :
  http.Code
    (server.Writer
       (server.HandleHealth echo_server (post_run (mcp_request "" ∅ 0))
          (server.Start_exchange (http.NewWriter true) 0))) = Some 200.
Proof.
  refine (proj1 (C7_method_checks runtime_fwd echo_server
                   (post_run (mcp_request "" ∅ 0)) true 0
                   "/health" (server.HandleHealth echo_server) _)).
  unfold server.routes. apply list_elem_of_here.
Defined.

(** The name "Echo" has a handler and a definition on the echo server. *)
Lemma C10_witness :
  is_Some (server.handlers echo_server !! "Echo") ↔
  (api.GetTool (server.registry echo_server) "Echo").2 = true.
Proof.
  exact (proj1 (proj2 (C10_handlers_match_registry
                         [SetupTool echo_definition echo_handler]) "Echo")).
Defined.

(* ===================================================================== *)
(** ** More on the dispatcher: every path of [HandleRun] *)
(* ===================================================================== *)

Section DispatcherPaths.
Context (rt : Runtime).
Implicit Types (s : server.MCPServer) (r : http.Request).
Implicit Types (req : api.MCPRequest) (h : api.Handler) (σ : server.Exchange).

(** The four answers [HandleRun] gives before it looks at the parameters. *)
Lemma HandleRun_early s r σ :
  server.HandleRun rt s r σ =
  if negb (String.eqb (http.Method r) http.MethodPost) then
    server.on_writer
      (server.sendErrorResponse "Method not allowed"
         http.StatusMethodNotAllowed) σ
  else
    match http.Body r with
    | http.BodyUnreadable =>
      server.on_writer
        (server.sendErrorResponse "Failed to read request body"
           http.StatusBadRequest) σ
    | http.BodyMalformed =>
      server.on_writer
        (server.sendErrorResponse "Invalid request format"
           http.StatusBadRequest) σ
    | http.BodyJSON req =>
      if String.eqb (api.ToolName req) "" then
        server.on_writer
          (server.sendErrorResponse "Missing tool_name in request"
             http.StatusBadRequest) σ
      else
        match server.handlers s !! api.ToolName req with
        | None =>
          server.on_writer
            (server.sendErrorResponse ("Unknown tool: " +:+ api.ToolName req)
               http.StatusBadRequest) σ
        | Some h => server.HandleRun rt s r σ
        end
    end.
Proof.
  unfold server.HandleRun at 1.
  destruct (negb _) eqn:Hm; [done|].
  destruct (http.Body r) as [| |req] eqn:Hb; [done..|].
  destruct (String.eqb (api.ToolName req) "") eqn:Hn; [done|].
  destruct (server.handlers s !! api.ToolName req) as [h|] eqn:Hh; [|done].
  unfold server.HandleRun. by rewrite Hm, Hb, Hn, Hh.
Qed.

(** X1.  Whatever the request, [HandleRun] answers a fresh writer with
    exactly one JSON document under the content type application/json:
    the final envelope with status 200 after one handler call, an error
    envelope with status 500 after one handler call, or an error envelope
    with status 400 or 405 without any handler call. *)
Theorem X1_run_one_envelope s r flusher now :
  let σ :=
    server.HandleRun rt s r
      (server.Start_exchange (http.NewWriter flusher) now) in
  let w := server.Writer σ in
  http.Header w !! "Content-Type" = Some "application/json" ∧
  ((∃ result,
      http.Written w = [http.DFinal {| api.Result := result |}] ∧
      http.Code w = Some http.StatusOK ∧
      length (server.Invoked σ) = 1%nat) ∨
   (∃ message,
      http.Written w =
        [http.DError {| api.Message := message; api.Code := "" |}] ∧
      ((http.Code w = Some http.StatusInternalServerError ∧
        length (server.Invoked σ) = 1%nat) ∨
       ((http.Code w = Some http.StatusBadRequest ∨
         http.Code w = Some http.StatusMethodNotAllowed) ∧
        server.Invoked σ = [])))).
Proof.
  intros σ w. subst w σ. rewrite HandleRun_early.
  destruct (negb _) eqn:Hm.
  { split; [done|]. right. eexists. split; [done|]. right. by split; [right|]. }
  destruct (http.Body r) as [| |req] eqn:Hb.
  1,2: split; [done|]; right; eexists; split; [done|]; right;
       by split; [left|].
  destruct (String.eqb (api.ToolName req) "") eqn:Hn.
  { split; [done|]. right. eexists. split; [done|]. right. by split; [left|]. }
  destruct (server.handlers s !! api.ToolName req) as [h|] eqn:Hh.
  2: { split; [done|]. right. eexists. split; [done|]. right.
       by split; [left|]. }
  assert (Hd : dispatched s r req h).
  { split_and!; [|done| |done].
    - apply negb_false_iff in Hm. by apply String.eqb_eq.
    - by apply String.eqb_neq. }
  rewrite (HandleRun_dispatched rt s r req h _ Hd).
  destruct (server.validateParameters _ _ _) as [e|].
  { split; [done|]. right. eexists. split; [done|]. right. by split; [left|]. }
  cbn zeta. destruct (api.err _) as [e|].
  - split; [done|]. right. eexists. split; [done|]. by left.
  - split; [done|]. left. by eexists.
Qed.

(** X2.  The checks [HandleRun] makes before it resolves the tool: a body
    that cannot be read, a body that is not a JSON request, and an empty
    tool name are each answered with status 400 and their own message,
    without a handler call.  The empty name is refused before the lookup,
    so a tool registered under the empty name is never run. *)
Theorem X2_run_malformed s r flusher now :
  http.Method r = http.MethodPost →
  let σ :=
    server.HandleRun rt s r
      (server.Start_exchange (http.NewWriter flusher) now) in
  let answer (message : string) :=
    http.Code (server.Writer σ) = Some http.StatusBadRequest ∧
    http.Written (server.Writer σ) =
      [http.DError {| api.Message := message; api.Code := "" |}] ∧
    server.Invoked σ = [] in
  (http.Body r = http.BodyUnreadable → answer "Failed to read request body") ∧
  (http.Body r = http.BodyMalformed → answer "Invalid request format") ∧
  (∀ req, http.Body r = http.BodyJSON req → api.ToolName req = "" →
     answer "Missing tool_name in request").
Proof.
  intros Hm σ answer. subst answer σ. rewrite HandleRun_early, Hm.
  replace (String.eqb http.MethodPost http.MethodPost) with true by done.
  cbn [negb]. split_and!.
  - by intros ->.
  - by intros ->.
  - intros req -> ->. done.
Qed.

(** X3.  A request for a name that has no handler is answered with status
    400 and "Unknown tool: <name>", without a handler call; on a server set
    up by registrations this happens exactly for the names no definition
    was registered under. *)
Theorem X3_run_unknown_tool cs r req flusher now :
  http.Method r = http.MethodPost →
  http.Body r = http.BodyJSON req →
  api.ToolName req ≠ "" →
  let s := configured cs in
  let σ :=
    server.HandleRun rt s r
      (server.Start_exchange (http.NewWriter flusher) now) in
  (api.GetTool (server.registry s) (api.ToolName req)).2 = false ↔
  (http.Code (server.Writer σ) = Some http.StatusBadRequest ∧
   http.Written (server.Writer σ) =
     [http.DError {| api.Message := "Unknown tool: " +:+ api.ToolName req;
                     api.Code := "" |}] ∧
   server.Invoked σ = []).
Proof.
  intros Hm Hb Hn s σ. subst σ.
  assert (Hiff : is_Some (server.handlers s !! api.ToolName req) ↔
                 (api.GetTool (server.registry s) (api.ToolName req)).2 = true).
  { unfold api.GetTool. rewrite <- elem_of_dom. unfold s.
    rewrite configured_dom, elem_of_dom.
    destruct (api.tools _ !! _); simpl; split; (done || by intros []). }
  destruct (server.handlers s !! api.ToolName req) as [h|] eqn:Hh.
  - assert ((api.GetTool (server.registry s) (api.ToolName req)).2 = true)
      as -> by (apply Hiff; eauto).
    split; [done|]. intros (Hc & Hw & Hi).
    assert (Hd : dispatched s r req h) by done.
    rewrite (HandleRun_dispatched rt s r req h _ Hd) in Hw, Hi.
    destruct (server.validateParameters _ _ _) as [e|].
    + simpl in Hw. discriminate.
    + cbn zeta in Hi. destruct (api.err _); discriminate.
  - destruct Hiff as [_ Hback].
    destruct ((api.GetTool (server.registry s) (api.ToolName req)).2).
    { by destruct (Hback eq_refl). }
    split; [intros _|done].
    rewrite HandleRun_early, Hm, Hb, Hh.
    replace (String.eqb http.MethodPost http.MethodPost) with true by done.
    cbn [negb]. apply String.eqb_neq in Hn. by rewrite Hn.
Qed.

(** X4.  A dispatched request whose parameters fail the validation, for
    whatever reason, is answered with status 400 and the validator's error
    after "Parameter validation failed: "; the handler is not called and
    no time passes.  One that passes and whose handler returns no error is
    answered with status 200 and the final envelope of the handler's
    result, when the handler returns. *)
Theorem X4_run_validated s r req h flusher now :
  dispatched s r req h →
  let verdict :=
    server.validateParameters rt (api.Input req) (schema_of s req) in
  let σ :=
    server.HandleRun rt s r
      (server.Start_exchange (http.NewWriter flusher) now) in
  let ret := api.HandleRequest h req in
  (∀ e, verdict = Some e →
     http.Code (server.Writer σ) = Some http.StatusBadRequest ∧
     http.Written (server.Writer σ) =
       [http.DError
          {| api.Message := "Parameter validation failed: " +:+ e;
             api.Code := "" |}] ∧
     server.Invoked σ = [] ∧ server.Clock σ = now) ∧
  (verdict = None → api.err ret = None →
     http.Code (server.Writer σ) = Some http.StatusOK ∧
     http.Written (server.Writer σ) =
       [http.DFinal {| api.Result := api.result ret |}] ∧
     server.Invoked σ = [(h, req)] ∧
     server.Clock σ = now + api.millis ret).
Proof.
  intros Hd verdict σ ret. subst verdict σ.
  rewrite (HandleRun_dispatched rt s r req h _ Hd). split.
  - by intros e ->.
  - intros -> Herr. cbn zeta. fold ret. by rewrite Herr.
Qed.

End DispatcherPaths.

(* ===================================================================== *)
(** ** More on the registry, the tool list and the checkers *)
(* ===================================================================== *)

Section RegistryContents.
Context (rt : Runtime).
Implicit Types (defs : list api.ToolDefinition) (cs : list Setup).
Implicit Types (d tool : api.ToolDefinition) (name : string).

Lemma configured_registry cs :
  server.registry (configured cs) = registered (definitions_of cs).
Proof.
  induction cs as [|c cs IH] using rev_ind; [done|].
  rewrite configured_snoc. unfold definitions_of. rewrite omap_app.
  destruct c as [definition handler|checker]; simpl.
  - rewrite registered_snoc. by rewrite IH.
  - by rewrite app_nil_r.
Qed.

Lemma configured_checkers cs :
  server.serviceCheckers (configured cs) = checkers_of cs.
Proof.
  induction cs as [|c cs IH] using rev_ind; [done|].
  rewrite configured_snoc. unfold checkers_of. rewrite omap_app.
  destruct c as [definition handler|checker]; simpl.
  - by rewrite app_nil_r.
  - by rewrite IH.
Qed.

Lemma registered_dom defs :
  dom (api.tools (registered defs)) = list_to_set (api.Name <$> defs).
Proof.
  induction defs as [|d defs IH] using rev_ind; [done|].
  rewrite registered_snoc. cbn [api.RegisterTool api.tools].
  rewrite dom_insert_L, IH, fmap_app, list_to_set_app_L. simpl. set_solver.
Qed.

(** X5.  The registry keeps, under each name, the definition registered
    last under it: [GetTool] finds the last definition of that name among
    the registrations, and the zero definition with [false] when there is
    none.  Registrations under other names do not matter. *)
Theorem X5_last_registration_wins defs name :
  api.GetTool (registered defs) name =
  match last (filter (λ d, api.Name d = name) defs) with
  | Some d => (d, true)
  | None => (api.ToolDefinition_zero, false)
  end.
Proof.
  induction defs as [|d defs IH] using rev_ind; [done|].
  rewrite registered_snoc, filter_app. unfold api.GetTool in *.
  cbn [api.RegisterTool api.tools]. rewrite lookup_insert.
  rewrite filter_cons, filter_nil. case_decide as Hname.
  - by rewrite last_snoc.
  - by rewrite app_nil_r.
Qed.

(** The tools listed are the values of a map whose keys are their names. *)
Lemma ListTools_names defs :
  api.Name <$> api.ListTools rt (registered defs) =
  (range_order rt (api.tools (registered defs))).*1.
Proof.
  rewrite ListTools_values.
  assert (H : ∀ kv, kv ∈ range_order rt (api.tools (registered defs)) →
                    api.Name kv.2 = kv.1).
  { intros [k tool] Hin. apply elem_of_range_order in Hin.
    by apply registered_keyed in Hin. }
  revert H. generalize (range_order rt (api.tools (registered defs))).
  induction l as [|kv l IH]; intros H; [done|].
  rewrite !fmap_cons. f_equal.
  - apply H. by left.
  - apply IH. intros kv' Hin. apply H. by right.
Qed.

(** X6.  GET /v1/tools on a server set up by registrations answers with
    status 200 and one document listing the registered tools: a definition
    is listed exactly when it is the one [GetTool] finds under its name, no
    two listed definitions share a name, and there are as many as there
    are distinct names among the registrations, none when no tool was
    registered. *)
Theorem X6_list_tools cs r flusher now :
  http.Method r = http.MethodGet →
  let s := configured cs in
  let σ :=
    server.HandleListTools rt s r
      (server.Start_exchange (http.NewWriter flusher) now) in
  ∃ tools,
    http.Written (server.Writer σ) = [http.DTools tools] ∧
    http.Code (server.Writer σ) = Some http.StatusOK ∧
    http.Header (server.Writer σ) !! "Content-Type" = Some "application/json" ∧
    (∀ d, d ∈ tools ↔ api.GetTool (server.registry s) (api.Name d) = (d, true)) ∧
    NoDup (api.Name <$> tools) ∧
    length tools = length (remove_dups (api.Name <$> definitions_of cs)) ∧
    (definitions_of cs = [] → tools = []).
Proof.
  intros Hm s σ. subst σ s. unfold server.HandleListTools. rewrite Hm.
  replace (String.eqb http.MethodGet http.MethodGet) with true by done.
  cbn [negb]. rewrite configured_registry.
  generalize (definitions_of cs). intros defs.
  exists (api.ListTools rt (registered defs)).
  split_and!; [done..| | | |].
  - intros d. rewrite ListTools_values, list_elem_of_fmap. unfold api.GetTool.
    split.
    + intros ([k tool] & -> & Hin). apply elem_of_range_order in Hin.
      simpl. rewrite (registered_keyed _ _ _ Hin). by rewrite Hin.
    + intros Hget. exists (api.Name d, d). split; [done|].
      apply elem_of_range_order.
      destruct (api.tools (registered defs) !! api.Name d); congruence.
  - rewrite ListTools_names, range_order_perm. apply NoDup_fst_map_to_list.
  - rewrite <- (length_fmap api.Name), ListTools_names, length_fmap.
    rewrite range_order_perm, length_map_to_list, <- size_dom, registered_dom.
    assert (Hset : (list_to_set (api.Name <$> defs) : gset string) =
                   list_to_set (remove_dups (api.Name <$> defs))).
    { apply set_eq. intros x.
      by rewrite !elem_of_list_to_set, elem_of_remove_dups. }
    rewrite Hset. apply size_list_to_set, NoDup_remove_dups.
  - intros ->. rewrite ListTools_values.
    unfold registered. simpl. by rewrite range_order_empty.
Qed.

(** X7.  The checkers of a server are the registered ones in the order of
    their registration, repeated when one was registered twice, and
    registering tools leaves them alone; GET /v1/service-health probes
    exactly these, in that order.  With no checker registered it answers
    with status 200, the status "ok" and no service. *)
Theorem X7_checkers_in_order cs r flusher now :
  http.Method r = http.MethodGet →
  let s := configured cs in
  let σ :=
    server.HandleServiceHealth s r
      (server.Start_exchange (http.NewWriter flusher) now) in
  server.serviceCheckers s = checkers_of cs ∧
  server.Probed σ = checkers_of cs ∧
  (checkers_of cs = [] →
   http.Code (server.Writer σ) = Some http.StatusOK ∧
   http.Written (server.Writer σ) = [http.DServiceHealth "ok" ∅]).
Proof.
  intros Hm s σ. subst σ s. unfold server.HandleServiceHealth.
  rewrite Hm. replace (String.eqb http.MethodGet http.MethodGet) with true by done.
  cbn [negb]. rewrite checkService_foldl, configured_checkers.
  split_and!; [done..|]. by intros ->.
Qed.

(** X8.  [handleStreamingRequest] calls the handler once, with the request
    alone, and writes exactly one partial frame, marked done, which it
    flushes once.  A handler error is not answered with an error envelope
    or a status 500: its text goes into the frame's content under "error"
    and the status is 200.  The context does not matter. *)
Theorem X8_streaming_one_frame ctx req h flusher now :
  let σ :=
    server.handleStreamingRequest ctx req h
      (server.Start_exchange (http.NewWriter flusher) now) in
  let ret := api.HandleRequest h req in
  server.Invoked σ = [(h, req)] ∧
  server.Clock σ = now + api.millis ret ∧
  http.Code (server.Writer σ) = Some http.StatusOK ∧
  http.Flushed (server.Writer σ) = 1%nat ∧
  http.Written (server.Writer σ) =
    [http.DPartial
       {| api.Content :=
            match api.err ret with
            | Some e => VObject {[ "error" := VString e ]}
            | None => api.result ret
            end;
          api.Done := true |}] ∧
  ∀ ctx', server.handleStreamingRequest ctx' req h
            (server.Start_exchange (http.NewWriter flusher) now) = σ.
Proof.
  intros σ ret. subst σ. unfold server.handleStreamingRequest.
  cbn [server.call]. fold ret. by destruct (api.err ret).
Qed.

End RegistryContents.

(* ===================================================================== *)
(** ** More on the validator: what it reads and what it lets through *)
(* ===================================================================== *)

Section ValidatorReach.
Implicit Types (rt : Runtime) (input schema spec : gmap string Value).
Implicit Types (p k ty : string) (v : Value).

(** X9.  Of a parameter's declaration the validator reads the keys
    "required" and "type" and nothing else: setting any other key, such as
    "items" or "description", to any value does not change the check.  So
    the elements of an array are never checked: every sequence passes for a
    parameter of type "array", whatever the declaration says of its
    items. *)
Theorem X9_only_required_and_type rt input p spec k v :
  k ≠ "required" → k ≠ "type" →
  server.validateParameter rt input p (VObject (<[k := v]> spec)) =
  server.validateParameter rt input p (VObject spec) ∧
  (spec !! "type" = Some (VString "array") →
   ∀ l, input !! p = Some (VArray l) →
     server.validateParameter rt input p (VObject (<[k := v]> spec)) = None).
Proof.
  intros Hreq Hty.
  assert (E : server.validateParameter rt input p (VObject (<[k := v]> spec)) =
              server.validateParameter rt input p (VObject spec)).
  { unfold server.validateParameter. cbn [as_object].
    by rewrite !lookup_insert_ne. }
  split; [done|]. intros Harr l Hl. rewrite E.
  unfold server.validateParameter. cbn [as_object]. rewrite Harr, Hl.
  rewrite bool_decide_eq_true_2, andb_false_r by eauto. done.
Qed.

(** X10.  What the validator lets through.  A declaration that is not an
    object is skipped, whether the parameter is present or not.  A
    parameter is optional unless its declaration holds the JSON boolean
    true under "required": any other value there, the string "true"
    included, does not make it required.  A value is accepted unchecked
    when the declaration has no "type", a "type" that is not a string, or
    a type name other than the six the validator knows. *)
Theorem X10_lenient_declarations rt input p :
  (∀ qs, as_object qs = None →
     server.validateParameter rt input p qs = None) ∧
  (∀ spec, spec !! "required" ≠ Some (VBool true) → input !! p = None →
     server.validateParameter rt input p (VObject spec) = None) ∧
  (∀ spec v, input !! p = Some v →
     (∀ ty, spec !! "type" = Some (VString ty) →
        ty ∉ ["string"; "number"; "integer"; "boolean"; "array"; "object"]) →
     server.validateParameter rt input p (VObject spec) = None).
Proof.
  split_and!.
  - intros qs Hqs. unfold server.validateParameter. by rewrite Hqs.
  - intros spec Hreq Hp. unfold server.validateParameter. cbn [as_object].
    rewrite Hp. destruct (spec !! "required") as [[|[]| | | |]|]; done.
  - intros spec v Hv Hty. unfold server.validateParameter. cbn [as_object].
    rewrite Hv, bool_decide_eq_true_2, andb_false_r by eauto.
    destruct (spec !! "type") as [[| | |ty| |]|]; try done.
    cbn [mbind option_bind as_string default]. unfold id.
    specialize (Hty ty eq_refl).
    destruct (String.eqb ty ""); [done|].
    repeat match goal with
           | |- context [String.eqb ty ?name] =>
             destruct (String.eqb_spec ty name) as [->|_];
             [exfalso; apply Hty; set_solver|]
           end.
    done.
Qed.

(** The check of one parameter depends on the runtime only through the
    conversion of overflowing numbers. *)
Lemma validateParameter_runtime rt rt' input p qs :
  (∀ x, int_overflow rt x = int_overflow rt' x) →
  server.validateParameter rt input p qs =
  server.validateParameter rt' input p qs.
Proof.
  intros Hov. unfold server.validateParameter, int_of_float64.
  destruct (as_object qs); [|done]. destruct (_ && _); [done|].
  destruct (input !! p) as [[| |x| | |]|]; try done.
  cbn [as_float64]. by rewrite Hov.
Qed.

(** X11.  Whether an input passes the validation does not depend on the
    order in which the schema is visited: two runtimes that convert
    numbers alike accept the same inputs.  Only the error reported for a
    rejected input can differ. *)
Theorem X11_verdict_order_free rt rt' input schema :
  (∀ x, int_overflow rt x = int_overflow rt' x) →
  (server.validateParameters rt input schema = None ↔
   server.validateParameters rt' input schema = None) ∧
  (is_Some (server.validateParameters rt input schema) ↔
   is_Some (server.validateParameters rt' input schema)).
Proof.
  intros Hov.
  assert (H : server.validateParameters rt input schema = None ↔
              server.validateParameters rt' input schema = None).
  { rewrite !validateParameters_None. split; intros H q qs Hq.
    - rewrite <- (validateParameter_runtime rt rt') by done. by apply H.
    - rewrite (validateParameter_runtime rt rt') by done. by apply H. }
  split; [done|]. rewrite <- !not_eq_None_Some. by rewrite H.
Qed.

End ValidatorReach.

(* ===================================================================== *)
(** ** The configuration and the wiring *)
(* ===================================================================== *)

Section Wiring.
Context (rt : Runtime) (o : arr.Outside).
Implicit Types (config : main.Config) (c : arr.Client).
Implicit Types (sc rc pc : option arr.Client).

Lemma is_empty_true s : main.is_empty s = true ↔ s = "".
Proof. apply String.eqb_eq. Qed.

Lemma is_empty_false s : main.is_empty s = false ↔ s ≠ "".
Proof. apply String.eqb_neq. Qed.

Lemma validLevels_lookup level :
  default false (main.validLevels !! level) = true ↔
  level ∈ ["debug"; "info"; "warn"; "error"].
Proof.
  rewrite !elem_of_cons, elem_of_nil.
  destruct (decide (level = "debug")) as [->|?]; [by split; [left|]|].
  destruct (decide (level = "info")) as [->|?]; [by split; [right; left|]|].
  destruct (decide (level = "warn")) as [->|?];
    [by split; [right; right; left|]|].
  destruct (decide (level = "error")) as [->|?];
    [by split; [right; right; right; left|]|].
  unfold main.validLevels.
  rewrite !lookup_insert_ne, lookup_singleton_ne by done. simpl.
  split; [done|]. intros [|[|[|[|[]]]]]; done.
Qed.

(** X12.  [validateConfig] accepts a configuration exactly when the host is
    not empty, the port lies between 1 and 65535, the log level is one of
    "debug", "info", "warn" and "error" written in lower case, and at
    least one of the three services has both its URL and its key. *)
Theorem X12_valid_config config :
  main.validateConfig config = None ↔
  main.Host config ≠ "" ∧
  1 ≤ main.Port config ≤ 65535 ∧
  main.LogLevel config ∈ ["debug"; "info"; "warn"; "error"] ∧
  (service_configured (main.SonarrURL config) (main.SonarrAPIKey config) ∨
   service_configured (main.RadarrURL config) (main.RadarrAPIKey config) ∨
   service_configured (main.ProwlarrURL config) (main.ProwlarrAPIKey config)).
Proof.
  unfold main.validateConfig, service_configured.
  rewrite <- validLevels_lookup, <- !is_empty_false.
  destruct (main.is_empty (main.Host config));
    [split; [done|by intros [? _]]|].
  destruct (Z.leb_spec (main.Port config) 0); [simpl; split; [done|lia]|].
  destruct (Z.ltb_spec 65535 (main.Port config)); [simpl; split; [done|lia]|].
  cbn [orb].
  destruct (default false _); cbn [negb];
    [|split; [done|by intros (_ & _ & ? & _)]].
  destruct (main.is_empty (main.SonarrURL config)),
    (main.is_empty (main.SonarrAPIKey config)),
    (main.is_empty (main.RadarrURL config)),
    (main.is_empty (main.RadarrAPIKey config)),
    (main.is_empty (main.ProwlarrURL config)),
    (main.is_empty (main.ProwlarrAPIKey config)); cbn [orb andb];
    (split;
     [first [done|
        intros _; (split; [done|split; [lia|split; [done|]]]);
        first [left; by split|right; left; by split|right; right; by split]]
     |first [done|intros (_ & _ & _ & [[? ?]|[[? ?]|[? ?]]]); done]]).
Qed.

(** What the wiring stores for Sonarr, whatever the other clients are. *)
Lemma setupServer_sonarr c rc pc :
  let s := main.setupServer rt o (Some c) rc pc in
  (server.handlers s !! "SonarrSearch" =
     Some (arr.SonarrSearchHandler o (Some c)) ∧
   (api.GetTool (server.registry s) "SonarrSearch").1 =
     main.tool "SonarrSearch" "Search for TV shows in Sonarr"
       {[ "query" := main.query_parameter "The search query for TV shows" ]}) ∧
  (server.handlers s !! "SonarrList" =
     Some (arr.SonarrListHandler o (Some c)) ∧
   (api.GetTool (server.registry s) "SonarrList").1 =
     main.tool "SonarrList" "List TV shows in Sonarr" ∅) ∧
  (server.handlers s !! "SonarrAddSeries" =
     Some (arr.SonarrAddSeriesHandler o (Some c)) ∧
   ∃ description,
     (api.GetTool (server.registry s) "SonarrAddSeries").1 =
     main.tool "SonarrAddSeries" "Add a new TV series to Sonarr"
       {[ "seriesData" := main.object_parameter description ]}).
Proof.
  intros s. subst s. destruct rc, pc; (split_and!; [reflexivity..|]);
    eexists; reflexivity.
Qed.

(** X13.  [setupServer] registers, for each client it is given, one health
    checker and the tools of that service: five for Sonarr, five for
    Radarr, two for Prowlarr, under twelve different names, each with a
    handler and a definition; for a client it is not given it registers
    nothing.  The checkers are in the order Sonarr, Radarr, Prowlarr. *)
Theorem X13_wiring_contents sc rc pc :
  let s := main.setupServer rt o sc rc pc in
  let names :=
    tools_for sc sonarr_tools ++ tools_for rc radarr_tools ++
    tools_for pc prowlarr_tools in
  server.serviceCheckers s = checkers_for o sc rc pc ∧
  dom (server.handlers s) = list_to_set names ∧
  dom (api.tools (server.registry s)) = list_to_set names ∧
  size (server.handlers s) = length names ∧
  NoDup names.
Proof.
  intros s names. subst s names.
  destruct sc, rc, pc; (split_and!; [reflexivity..|]);
    cbn [tools_for app]; refine (bool_decide_unpack _ _); by vm_compute.
Qed.

(** X14.  [getClients] makes a client for a service exactly when both the
    URL and the key of the service are given, with these two and the name
    of the service; so a configuration that [validateConfig] accepts is
    wired into a server with at least one health checker and at least two
    tools, and one that configures no service is refused. *)
Theorem X14_accepted_config_is_wired config :
  let '(sc, rc, pc) := main.getClients config in
  ((∀ c, sc = Some c ↔
      service_configured (main.SonarrURL config) (main.SonarrAPIKey config) ∧
      c = arr.NewClient (main.SonarrURL config) (main.SonarrAPIKey config)
            "Sonarr") ∧
   (∀ c, rc = Some c ↔
      service_configured (main.RadarrURL config) (main.RadarrAPIKey config) ∧
      c = arr.NewClient (main.RadarrURL config) (main.RadarrAPIKey config)
            "Radarr") ∧
   (∀ c, pc = Some c ↔
      service_configured (main.ProwlarrURL config)
        (main.ProwlarrAPIKey config) ∧
      c = arr.NewClient (main.ProwlarrURL config) (main.ProwlarrAPIKey config)
            "Prowlarr")) ∧
  (main.validateConfig config = None →
   server.serviceCheckers (wired rt o config) ≠ [] ∧
   (2 ≤ size (server.handlers (wired rt o config)))%nat) ∧
  (sc = None → rc = None → pc = None → main.validateConfig config ≠ None).
Proof.
  unfold wired, main.getClients, service_configured.
  destruct (main.is_empty (main.SonarrURL config)) eqn:E1,
    (main.is_empty (main.SonarrAPIKey config)) eqn:E2,
    (main.is_empty (main.RadarrURL config)) eqn:E3,
    (main.is_empty (main.RadarrAPIKey config)) eqn:E4,
    (main.is_empty (main.ProwlarrURL config)) eqn:E5,
    (main.is_empty (main.ProwlarrAPIKey config)) eqn:E6; cbn [negb andb];
    (split; [split_and!; intros c; rewrite <- !is_empty_false;
             rewrite ?E1, ?E2, ?E3, ?E4, ?E5, ?E6;
             (split; [intros [= <-]; done
                     |first [by intros [[? ?] ?]|by intros [_ ->]]])
            |]);
    (split;
     [unfold main.validateConfig;
      rewrite ?E1, ?E2, ?E3, ?E4, ?E5, ?E6; cbn [orb andb];
      first [intros _; split; [done|vm_compute; lia]
            |by repeat match goal with
                       | |- context [if ?b then _ else _] => destruct b
                       end]
     |first [done|
        intros _ _ _; unfold main.validateConfig;
        rewrite ?E1, ?E2, ?E3, ?E4, ?E5, ?E6; cbn [orb andb];
        by repeat match goal with
                  | |- context [if ?b then _ else _] => destruct b
                  end]]).
Qed.

(** The health report of a wiring whose clients carry the names of their
    services. *)
Lemma setupServer_health sc rc pc r flusher now :
  http.Method r = http.MethodGet →
  (∀ c, sc = Some c → arr.ServiceName c = "Sonarr") →
  (∀ c, rc = Some c → arr.ServiceName c = "Radarr") →
  (∀ c, pc = Some c → arr.ServiceName c = "Prowlarr") →
  let σ :=
    server.HandleServiceHealth (main.setupServer rt o sc rc pc) r
      (server.Start_exchange (http.NewWriter flusher) now) in
  let healthy := λ client : option arr.Client,
    from_option (λ c, bool_decide (arr.Check o c = None)) true client in
  ∃ results,
    http.Written (server.Writer σ) =
      [http.DServiceHealth
         (if healthy sc && healthy rc && healthy pc then "ok" else "degraded")
         results] ∧
    http.Code (server.Writer σ) =
      Some (if healthy sc && healthy rc && healthy pc
            then http.StatusOK else http.StatusServiceUnavailable) ∧
    results !! "Sonarr" = (report ∘ arr.checker o) <$> sc ∧
    results !! "Radarr" = (report ∘ arr.checker o) <$> rc ∧
    results !! "Prowlarr" = (report ∘ arr.checker o) <$> pc ∧
    dom results ⊆ {[ "Sonarr"; "Radarr"; "Prowlarr" ]}.
Proof.
  intros Hm Hs Hr Hp σ healthy. subst σ healthy.
  unfold server.HandleServiceHealth. rewrite Hm.
  replace (String.eqb http.MethodGet http.MethodGet) with true by done.
  cbn [negb]. rewrite checkService_foldl. cbn [andb].
  assert (Hchk : server.serviceCheckers (main.setupServer rt o sc rc pc) =
                 checkers_for o sc rc pc) by (by destruct sc, rc, pc).
  rewrite Hchk. clear Hchk. unfold checkers_for.
  destruct sc as [c1|], rc as [c2|], pc as [c3|];
    simpl; unfold arr.Name;
    rewrite ?(Hs c1 eq_refl), ?(Hr c2 eq_refl), ?(Hp c3 eq_refl);
    repeat match goal with
           | |- context [bool_decide ?P] => destruct (bool_decide P)
           end;
    eexists; (split_and!; [reflexivity|reflexivity|..]);
    first [by rewrite ?lookup_insert_eq, ?lookup_insert_ne, ?lookup_empty
             by done
          |rewrite ?dom_insert_L, ?dom_empty_L; set_solver].
Qed.

(** X15.  On the server wired for a configuration, GET
    /v1/service-health reports exactly the configured services, under the
    names "Sonarr", "Radarr" and "Prowlarr": each configured service has
    the entry "healthy" or "unhealthy: <detail>" of its own check, a
    service that is not configured has no entry, and the status is "ok"
    with code 200 when every configured service is healthy, "degraded"
    with code 503 otherwise. *)
Theorem X15_wired_service_health config r flusher now :
  http.Method r = http.MethodGet →
  let σ :=
    server.HandleServiceHealth (wired rt o config) r
      (server.Start_exchange (http.NewWriter flusher) now) in
  let sc := (main.getClients config).1.1 in
  let rc := (main.getClients config).1.2 in
  let pc := (main.getClients config).2 in
  let healthy := λ client : option arr.Client,
    from_option (λ c, bool_decide (arr.Check o c = None)) true client in
  ∃ results,
    http.Written (server.Writer σ) =
      [http.DServiceHealth
         (if healthy sc && healthy rc && healthy pc then "ok" else "degraded")
         results] ∧
    http.Code (server.Writer σ) =
      Some (if healthy sc && healthy rc && healthy pc
            then http.StatusOK else http.StatusServiceUnavailable) ∧
    results !! "Sonarr" = (report ∘ arr.checker o) <$> sc ∧
    results !! "Radarr" = (report ∘ arr.checker o) <$> rc ∧
    results !! "Prowlarr" = (report ∘ arr.checker o) <$> pc ∧
    dom results ⊆ {[ "Sonarr"; "Radarr"; "Prowlarr" ]}.
Proof.
  intros Hm σ sc rc pc healthy.
  assert (Hw : wired rt o config = main.setupServer rt o sc rc pc) by done.
  subst σ. rewrite Hw.
  apply setupServer_health; [done|subst sc|subst rc|subst pc];
    intros c; unfold main.getClients; cbn [fst snd];
    (destruct (_ && _); [by intros [= <-]|done]).
Qed.

End Wiring.

(** The configuration with Sonarr alone, when Sonarr cannot be reached. *)
Lemma X15_witness :
  ∃ results,
    http.Written
      (server.Writer
         (server.HandleServiceHealth (wired runtime_fwd unreachable sonarr_only)
            get_request (server.Start_exchange (http.NewWriter true) 0))) =
    [http.DServiceHealth "degraded" results] ∧
    results !! "Sonarr" =
      Some "unhealthy: health check failed: connection refused" ∧
    results !! "Radarr" = None.
Proof.
  destruct (X15_wired_service_health runtime_fwd unreachable sonarr_only
              get_request true 0 eq_refl)
    as (results & Hw & _ & Hs & Hr & _).
  exists results. split_and!; [exact Hw|exact Hs|exact Hr].
Defined.

(* ===================================================================== *)
(** ** The tools end to end: validator, handler and client together *)
(* ===================================================================== *)

Section Tools.
Context (rt : Runtime) (o : arr.Outside).
Implicit Types (c : arr.Client) (rc pc : option arr.Client).
Implicit Types (r : http.Request) (req : api.MCPRequest).
Implicit Types (input data : gmap string Value).

(** The check of a required string and of a required object. *)
Lemma validate_query input description :
  server.validateParameter rt input "query"
    (main.query_parameter description) =
  match input !! "query" with
  | None => Some "required parameter missing: query"
  | Some v =>
    match as_string v with
    | Some _ => None
    | None => Some "parameter query must be a string"
    end
  end.
Proof.
  unfold server.validateParameter, main.query_parameter. cbn [as_object].
  replace (({[ "type" := VString "string";
               "description" := VString description;
               "required" := VBool true ]} : gmap string Value) !! "required")
    with (Some (VBool true)) by done.
  replace (({[ "type" := VString "string";
               "description" := VString description;
               "required" := VBool true ]} : gmap string Value) !! "type")
    with (Some (VString "string")) by done.
  cbn [mbind option_bind as_bool as_string default]. unfold id.
  destruct (input !! "query") as [v|] eqn:Hv.
  - rewrite bool_decide_eq_true_2 by eauto. by destruct v.
  - by rewrite bool_decide_eq_false_2 by (by intros [? ?]).
Qed.

Lemma validate_object input p description :
  server.validateParameter rt input p (main.object_parameter description) =
  match input !! p with
  | None => Some ("required parameter missing: " +:+ p)
  | Some v =>
    match as_object v with
    | Some _ => None
    | None => Some ("parameter " +:+ p +:+ " must be an object")
    end
  end.
Proof.
  unfold server.validateParameter, main.object_parameter. cbn [as_object].
  replace (({[ "type" := VString "object";
               "description" := VString description;
               "required" := VBool true ]} : gmap string Value) !! "required")
    with (Some (VBool true)) by done.
  replace (({[ "type" := VString "object";
               "description" := VString description;
               "required" := VBool true ]} : gmap string Value) !! "type")
    with (Some (VString "object")) by done.
  cbn [mbind option_bind as_bool as_string default]. unfold id.
  destruct (input !! p) as [v|] eqn:Hv.
  - rewrite bool_decide_eq_true_2 by eauto. by destruct v.
  - by rewrite bool_decide_eq_false_2 by (by intros [? ?]).
Qed.

(** What [HandleRun] does with a request for a tool of one parameter. *)
Lemma HandleRun_one_parameter s r req h p ps σ :
  dispatched s r req h →
  schema_of s req = {[ p := ps ]} →
  server.HandleRun rt s r σ =
  match server.validateParameter rt (api.Input req) p ps with
  | Some e =>
    server.on_writer
      (server.sendErrorResponse ("Parameter validation failed: " +:+ e)
         http.StatusBadRequest) σ
  | None =>
    let ret := api.HandleRequest h req in
    let σ' := (server.call h req σ).2 in
    match api.err ret with
    | Some e =>
      server.on_writer
        (server.sendErrorResponse e http.StatusInternalServerError) σ'
    | None => server.on_writer (server.sendSuccessResponse (api.result ret)) σ'
    end
  end.
Proof.
  intros Hd Hs. rewrite (HandleRun_dispatched rt s r req h _ Hd), Hs.
  unfold server.validateParameters. rewrite range_order_singleton.
  cbn [server.validateEntries].
  by destruct (server.validateParameter rt (api.Input req) p ps).
Qed.

(** X16.  The tool "SonarrSearch" end to end.  A request without "query"
    is answered with status 400 and "required parameter missing: query",
    and one whose "query" is not a string with status 400 and "parameter
    query must be a string", on every runtime and without a handler call.
    An empty string passes the validator, but the handler refuses it:
    the answer is status 500 with "missing or invalid 'query' parameter",
    and the service is not contacted.  Any other string is searched for,
    and the answer is the final envelope of the results after the time the
    service took, or status 500 with "sonarr search failed: " and the
    client's error. *)
Theorem X16_sonarr_search c rc pc r req flusher now :
  http.Method r = http.MethodPost →
  http.Body r = http.BodyJSON req →
  api.ToolName req = "SonarrSearch" →
  let σ :=
    server.HandleRun rt (main.setupServer rt o (Some c) rc pc) r
      (server.Start_exchange (http.NewWriter flusher) now) in
  let refused (code : Z) (message : string) :=
    http.Code (server.Writer σ) = Some code ∧
    http.Written (server.Writer σ) =
      [http.DError {| api.Message := message; api.Code := "" |}] ∧
    server.Clock σ = now in
  let query := api.Input req !! "query" in
  (query = None →
   refused 400
     "Parameter validation failed: required parameter missing: query" ∧
   server.Invoked σ = []) ∧
  (∀ v, query = Some v → as_string v = None →
   refused 400
     "Parameter validation failed: parameter query must be a string" ∧
   server.Invoked σ = []) ∧
  (query = Some (VString "") →
   refused 500 "missing or invalid 'query' parameter") ∧
  (∀ term, query = Some (VString term) → term ≠ "" →
   server.Clock σ = now + (arr.SonarrClient.SearchSeries o c term).2 ∧
   match (arr.SonarrClient.SearchSeries o c term).1 with
   | Ok results =>
     http.Code (server.Writer σ) = Some http.StatusOK ∧
     http.Written (server.Writer σ) =
       [http.DFinal
          {| api.Result := VObject {[ "results" := arr.objects results ]} |}]
   | Fail e =>
     http.Code (server.Writer σ) = Some http.StatusInternalServerError ∧
     http.Written (server.Writer σ) =
       [http.DError {| api.Message := "sonarr search failed: " +:+ e;
                       api.Code := "" |}]
   end).
Proof.
  intros Hm Hb Hn σ refused query. subst σ refused query.
  destruct (setupServer_sonarr rt o c rc pc) as ((Hh & Hg) & _).
  set (s := main.setupServer rt o (Some c) rc pc) in *.
  assert (Hd : dispatched s r req (arr.SonarrSearchHandler o (Some c))).
  { split_and!; [done..|by rewrite Hn|by rewrite Hn]. }
  rewrite (HandleRun_one_parameter s r req _ "query"
             (main.query_parameter "The search query for TV shows") _ Hd)
    by (unfold schema_of; by rewrite Hn, Hg).
  rewrite validate_query. split_and!.
  - by intros ->.
  - intros v -> Hv. by rewrite Hv.
  - intros Hq. rewrite Hq. cbn [as_string]. cbn zeta.
    unfold server.call. cbn [snd].
    set (ret := api.HandleRequest _ req).
    assert (Hret : ret = arr.failed "missing or invalid 'query' parameter" 0).
    { subst ret. unfold arr.SonarrSearchHandler, arr.search_handler.
      cbn [api.HandleRequest]. by rewrite Hq. }
    rewrite Hret. cbn. split_and!; [done..|lia].
  - intros term Hq Hterm. rewrite Hq. cbn [as_string]. cbn zeta.
    unfold server.call. cbn [snd].
    set (ret := api.HandleRequest _ req).
    assert (Hret : ret =
      match arr.SonarrClient.SearchSeries o c term with
      | (Ok results, t) => arr.answered "results" (arr.objects results) t
      | (Fail e, t) => arr.failed ("sonarr search failed: " +:+ e) t
      end).
    { subst ret. unfold arr.SonarrSearchHandler, arr.search_handler.
      cbn [api.HandleRequest]. rewrite Hq. cbn [mbind option_bind as_string].
      apply String.eqb_neq in Hterm. by rewrite Hterm. }
    rewrite Hret.
    by destruct (arr.SonarrClient.SearchSeries o c term) as [[results|e] t].
Qed.

(** The first missing field: every field before it is present. *)
Lemma first_missing_Some fields data field :
  arr.first_missing fields data = Some field ↔
  ∃ before after, fields = before ++ field :: after ∧
    (∀ f, f ∈ before → is_Some (data !! f)) ∧ data !! field = None.
Proof.
  induction fields as [|f fields IH]; simpl.
  - split; [done|]. intros (before & after & E & _). by destruct before.
  - destruct (data !! f) as [v|] eqn:Hf.
    + rewrite IH. split.
      * intros (before & after & -> & Hb & Hm). exists (f :: before), after.
        split_and!; [done| |done]. intros f' [->|?]%elem_of_cons; eauto.
      * intros ([|f' before] & after & E & Hb & Hm); simplify_eq/=.
        exists before, after. split_and!; [done| |done].
        intros f'' ?. apply Hb. by right.
    + split.
      * intros [= <-]. exists [], fields. split_and!; [done| |done].
        by intros ? ?%elem_of_nil.
      * intros ([|f' before] & after & E & Hb & Hm); simplify_eq/=; [done|].
        destruct (Hb f') as [? ?]; [by left|congruence].
Qed.

Lemma first_missing_None fields data :
  arr.first_missing fields data = None ↔
  ∀ f, f ∈ fields → is_Some (data !! f).
Proof.
  induction fields as [|f fields IH]; simpl.
  - split; [by intros _ ? ?%elem_of_nil|done].
  - destruct (data !! f) as [v|] eqn:Hf.
    + rewrite IH. split.
      * intros H f' [->|?]%elem_of_cons; eauto.
      * intros H f' ?. apply H. by right.
    + split; [done|]. intros H. destruct (H f) as [? ?]; [by left|congruence].
Qed.

(** Filling in defaults keeps what is there and adds what is not. *)
Lemma set_defaults_spec defaults data :
  let data' := foldl (λ data kv, arr.set_default kv.1 kv.2 data) data defaults in
  data ⊆ data' ∧
  dom data' = dom data ∪ list_to_set defaults.*1 ∧
  (NoDup defaults.*1 → ∀ k v, (k, v) ∈ defaults → data !! k = None →
     data' !! k = Some v).
Proof.
  revert data. induction defaults as [|[k v] defaults IH]; intros data; simpl.
  - split_and!; [done|set_solver|by intros _ ? ? ?%elem_of_nil].
  - destruct (IH (arr.set_default k v data)) as (Hsub & Hdom & Hnew).
    assert (Hstep : data ⊆ arr.set_default k v data).
    { unfold arr.set_default. destruct (data !! k) eqn:E; [done|].
      by apply insert_subseteq. }
    assert (Hdomstep : dom (arr.set_default k v data) = dom data ∪ {[k]}).
    { unfold arr.set_default. destruct (data !! k) eqn:E.
      - apply elem_of_dom_2 in E. set_solver.
      - rewrite dom_insert_L. set_solver. }
    split_and!.
    + by etrans.
    + rewrite Hdom, Hdomstep. set_solver.
    + intros [Hk Hnd]%NoDup_cons k' v' [[= -> ->]|Hin]%elem_of_cons Hnone.
      * eapply lookup_weaken; [|exact Hsub].
        unfold arr.set_default. rewrite Hnone. apply lookup_insert_eq.
      * apply Hnew; [done..|].
        assert (k' ≠ k).
        { intros ->. apply Hk. apply list_elem_of_fmap. by exists (k, v'). }
        unfold arr.set_default. destruct (data !! k); [done|].
        by rewrite lookup_insert_ne.
Qed.

(** X17.  [AddSeries] and [AddMovie] check their four required fields in
    the order they list them and fail on the first that is missing, naming
    it, without contacting the service.  When all four are there, they post
    the data with the defaults filled in: every field given is kept as it
    is, and "monitored", "seasonFolder" (for a movie "minimumAvailability")
    and "addOptions" are added when they are not given.  ([add] with no
    required field and no default posts its data as it is.) *)
Theorem X17_add_series_and_movie c data :
  (∀ before field after,
     ["tvdbId"; "title"; "qualityProfileId"; "rootFolderPath"] =
       before ++ field :: after →
     (∀ f, f ∈ before → is_Some (data !! f)) → data !! field = None →
     arr.SonarrClient.AddSeries o c data =
     (Fail ("missing required field for adding series: " +:+ field), 0)) ∧
  (∀ before field after,
     ["tmdbId"; "title"; "qualityProfileId"; "rootFolderPath"] =
       before ++ field :: after →
     (∀ f, f ∈ before → is_Some (data !! f)) → data !! field = None →
     arr.RadarrClient.AddMovie o c data =
     (Fail ("missing required field for adding movie: " +:+ field), 0)) ∧
  ((∀ f, f ∈ ["tvdbId"; "title"; "qualityProfileId"; "rootFolderPath"] →
      is_Some (data !! f)) →
   ∃ data', data ⊆ data' ∧
     dom data' = dom data ∪ {[ "monitored"; "seasonFolder"; "addOptions" ]} ∧
     (data !! "monitored" = None → data' !! "monitored" = Some (VBool true)) ∧
     (data !! "seasonFolder" = None →
      data' !! "seasonFolder" = Some (VBool true)) ∧
     (data !! "addOptions" = None →
      data' !! "addOptions" =
        Some (VObject {[ "searchForMissingEpisodes" := VBool true ]})) ∧
     arr.SonarrClient.AddSeries o c data =
     arr.add o c "/api/v3/series" "series" "failed to add series to Sonarr"
       [] [] data') ∧
  ((∀ f, f ∈ ["tmdbId"; "title"; "qualityProfileId"; "rootFolderPath"] →
      is_Some (data !! f)) →
   ∃ data', data ⊆ data' ∧
     dom data' =
       dom data ∪ {[ "monitored"; "minimumAvailability"; "addOptions" ]} ∧
     (data !! "monitored" = None → data' !! "monitored" = Some (VBool true)) ∧
     (data !! "minimumAvailability" = None →
      data' !! "minimumAvailability" = Some (VString "released")) ∧
     (data !! "addOptions" = None →
      data' !! "addOptions" =
        Some (VObject {[ "searchForMovie" := VBool true ]})) ∧
     arr.RadarrClient.AddMovie o c data =
     arr.add o c "/api/v3/movie" "movie" "failed to add movie to Radarr"
       [] [] data').
Proof.
  split_and!.
  - intros before field after E Hb Hm.
    unfold arr.SonarrClient.AddSeries, arr.add.
    assert (arr.first_missing
              ["tvdbId"; "title"; "qualityProfileId"; "rootFolderPath"] data
            = Some field) as ->; [|done].
    apply first_missing_Some. by exists before, after.
  - intros before field after E Hb Hm.
    unfold arr.RadarrClient.AddMovie, arr.add.
    assert (arr.first_missing
              ["tmdbId"; "title"; "qualityProfileId"; "rootFolderPath"] data
            = Some field) as ->; [|done].
    apply first_missing_Some. by exists before, after.
  - intros Hall. apply first_missing_None in Hall.
    unfold arr.SonarrClient.AddSeries. unfold arr.add at 1. rewrite Hall.
    match goal with
    | |- context [foldl ?f data ?defaults] =>
      destruct (set_defaults_spec defaults data) as (Hsub & Hdom & Hnew);
      exists (foldl f data defaults)
    end.
    split_and!; [done| | | | |done].
    + rewrite Hdom. simpl. set_solver.
    + intros Hn. apply Hnew; [|set_solver|done].
      refine (bool_decide_unpack _ _). by vm_compute.
    + intros Hn. apply Hnew; [|set_solver|done].
      refine (bool_decide_unpack _ _). by vm_compute.
    + intros Hn. apply Hnew; [|set_solver|done].
      refine (bool_decide_unpack _ _). by vm_compute.
  - intros Hall. apply first_missing_None in Hall.
    unfold arr.RadarrClient.AddMovie. unfold arr.add at 1. rewrite Hall.
    match goal with
    | |- context [foldl ?f data ?defaults] =>
      destruct (set_defaults_spec defaults data) as (Hsub & Hdom & Hnew);
      exists (foldl f data defaults)
    end.
    split_and!; [done| | | | |done].
    + rewrite Hdom. simpl. set_solver.
    + intros Hn. apply Hnew; [|set_solver|done].
      refine (bool_decide_unpack _ _). by vm_compute.
    + intros Hn. apply Hnew; [|set_solver|done].
      refine (bool_decide_unpack _ _). by vm_compute.
    + intros Hn. apply Hnew; [|set_solver|done].
      refine (bool_decide_unpack _ _). by vm_compute.
Qed.

(** X18.  Each of the seven listing tools ignores its input and sends one
    GET without a body.  When the request fails, the error of the tool
    repeats its own text: "<what>: <what>: <cause>", once from the client
    and once from the handler; when the answer cannot be decoded it is
    "<what>: error parsing response: <cause>"; otherwise the result holds
    the list under the key of the tool.  The time is that of the request. *)
Theorem X18_listing_tools path what key mk c req :
  (path, what, key, mk) ∈ list_tools o →
  api.HandleRequest (mk (Some c)) req =
  match arr.doRequest o c http.MethodGet path None with
  | (Fail e, t) => arr.failed (what +:+ ": " +:+ what +:+ ": " +:+ e) t
  | (Ok body, t) =>
    match arr.json_Unmarshal_list o body with
    | Fail e => arr.failed (what +:+ ": error parsing response: " +:+ e) t
    | Ok l => arr.answered key (arr.objects l) t
    end
  end.
Proof.
  unfold list_tools. rewrite !elem_of_cons, elem_of_nil.
  intros [E|[E|[E|[E|[E|[E|[E|[]]]]]]]]; injection E as -> -> -> ->;
    cbn [arr.SonarrListHandler arr.SonarrGetProfilesHandler
         arr.SonarrGetRootFoldersHandler arr.RadarrListHandler
         arr.RadarrGetProfilesHandler arr.RadarrGetRootFoldersHandler
         arr.ProwlarrIndexersHandler arr.list_handler api.HandleRequest];
    unfold arr.SonarrClient.GetSeries, arr.SonarrClient.GetQualityProfiles,
      arr.SonarrClient.GetRootFolders, arr.RadarrClient.GetMovies,
      arr.RadarrClient.GetQualityProfiles, arr.RadarrClient.GetRootFolders,
      arr.ProwlarrClient.GetIndexers, arr.get_list;
    (destruct (arr.doRequest o c http.MethodGet _ None) as [[body|e] t];
     [destruct (arr.json_Unmarshal_list o body) as [l|e]|]);
    reflexivity.
Qed.

(** X19.  The categories of "ProwlarrSearch".  The validator accepts every
    sequence under "categories", although the tool declares its items to
    be integers.  The handler registered for the tool then searches with
    the numbers of the sequence, in their order, each converted to an int,
    and passes over every element that is not a number: taking such an
    element out of the sequence changes nothing.  So a number with a
    fractional part is not refused but cut off toward zero, and a request
    whose sequence holds no number is answered like one without
    "categories". *)
Theorem X19_prowlarr_categories c sc rc req l :
  api.Input req !! "categories" = Some (VArray l) →
  let input := api.Input req in
  let numbers := omap as_float64 l in
  let handler := arr.ProwlarrSearchHandler rt o (Some c) in
  (server.handlers (main.setupServer rt o sc rc (Some c)) !! "ProwlarrSearch" =
     Some handler ∧
   api.Parameters
     (api.GetTool
        (server.registry (main.setupServer rt o sc rc (Some c)))
        "ProwlarrSearch").1 !! "categories" = Some categories_parameter) ∧
  server.validateParameter rt input "categories" categories_parameter = None ∧
  arr.categories_of rt input = int_of_float64 rt <$> numbers ∧
  (Forall (λ x, in_int (float64_trunc x) = true) numbers →
     arr.categories_of rt input = float64_trunc <$> numbers) ∧
  (∀ l1 v l2, l = l1 ++ v :: l2 → as_float64 v = None →
     arr.categories_of rt input =
     arr.categories_of rt (<["categories" := VArray (l1 ++ l2)]> input)) ∧
  (length (arr.categories_of rt input) ≤ length l)%nat ∧
  (∀ xs, l = VNumber <$> xs →
     Forall (λ x, in_int (float64_trunc x) = true) xs →
     arr.categories_of rt input = float64_trunc <$> xs) ∧
  (Forall (λ v, as_float64 v = None) l → arr.categories_of rt input = []) ∧
  (∀ query, input !! "query" = Some (VString query) → query ≠ "" →
     api.HandleRequest handler req =
       match
         arr.ProwlarrClient.Search o c query (int_of_float64 rt <$> numbers)
       with
       | (Fail e, t) => arr.failed ("prowlarr search failed: " +:+ e) t
       | (Ok results, t) => arr.answered "results" (arr.objects results) t
       end ∧
     (numbers = [] →
      ∀ req', api.Input req' !! "query" = Some (VString query) →
        api.Input req' !! "categories" = None →
        api.HandleRequest handler req = api.HandleRequest handler req')).
Proof.
  intros Hl input numbers handler. subst input numbers handler.
  assert (E : ∀ l0 : list Value,
            omap (λ cat, int_of_float64 rt <$> as_float64 cat) l0 =
            int_of_float64 rt <$> omap as_float64 l0).
  { induction l0 as [|v l' IH]; [done|]. cbn [omap list_omap].
    destruct (as_float64 v); simpl; by rewrite ?IH. }
  assert (Hcat : arr.categories_of rt (api.Input req) =
                 int_of_float64 rt <$> omap as_float64 l).
  { unfold arr.categories_of. rewrite Hl. cbn [as_array]. apply E. }
  assert (Htrunc : ∀ xs, Forall (λ x, in_int (float64_trunc x) = true) xs →
                     int_of_float64 rt <$> xs = float64_trunc <$> xs).
  { induction 1 as [|x xs Hx _ IH]; [done|].
    rewrite !fmap_cons, IH. unfold int_of_float64 at 1. by rewrite Hx. }
  split; [split; by destruct sc, rc|].
  split.
  { unfold server.validateParameter, categories_parameter. cbn [as_object].
    rewrite Hl, bool_decide_eq_true_2, andb_false_r by eauto. done. }
  split; [done|].
  split; [intros Hn; by rewrite Hcat, Htrunc|].
  split.
  { intros l1 v l2 -> Hv. rewrite Hcat. unfold arr.categories_of.
    rewrite lookup_insert_eq. cbn [as_array].
    rewrite omap_app. cbn [omap list_omap]. rewrite Hv.
    by rewrite E, omap_app. }
  split.
  { rewrite Hcat, length_fmap. clear. induction l as [|v l' IH]; [done|].
    cbn [omap list_omap]. destruct (as_float64 v); simpl; lia. }
  split.
  { intros xs -> Hxs. rewrite Hcat.
    assert (Hxs' : omap as_float64 (VNumber <$> xs) = xs).
    { clear. induction xs as [|x xs IH]; [done|]. rewrite fmap_cons.
      cbn [omap list_omap as_float64]. simpl. by rewrite IH. }
    by rewrite Hxs', Htrunc. }
  assert (Hnone : Forall (λ v, as_float64 v = None) l → omap as_float64 l = []).
  { clear. induction 1 as [|v l' Hv _ IH]; [done|].
    cbn [omap list_omap]. by rewrite Hv. }
  split; [intros Hf; by rewrite Hcat, Hnone|].
  intros query Hq Hne.
  assert (Hrun : ∀ req0, api.Input req0 !! "query" = Some (VString query) →
            api.HandleRequest (arr.ProwlarrSearchHandler rt o (Some c)) req0 =
            match
              arr.ProwlarrClient.Search o c query
                (arr.categories_of rt (api.Input req0))
            with
            | (Fail e, t) => arr.failed ("prowlarr search failed: " +:+ e) t
            | (Ok results, t) =>
              arr.answered "results" (arr.objects results) t
            end).
  { intros req0 Hr. cbn [arr.ProwlarrSearchHandler api.HandleRequest].
    rewrite Hr. cbn [mbind option_bind as_string].
    apply String.eqb_neq in Hne. rewrite Hne.
    by destruct (arr.ProwlarrClient.Search _ _ _ _) as [[results|e] t]. }
  split; [by rewrite (Hrun req Hq), Hcat|].
  intros Hn req' Hq' Hc'. rewrite (Hrun req Hq), (Hrun req' Hq'), Hcat, Hn.
  unfold arr.categories_of at 1. by rewrite Hc'.
Qed.

(** X20.  The tool "SonarrAddSeries" end to end.  A request without
    "seriesData", or with one that is not an object, is answered with
    status 400 by the validator.  An empty object passes the validator,
    but the handler refuses it with status 500 and "missing or invalid
    'seriesData' parameter".  An object that lacks a required field gets
    status 500 and "failed to add series to Sonarr: missing required
    field for adding series: <field>", for the first field that is
    missing.  In none of these cases is the service contacted. *)
Theorem X20_sonarr_add_series c rc pc r req flusher now :
  http.Method r = http.MethodPost →
  http.Body r = http.BodyJSON req →
  api.ToolName req = "SonarrAddSeries" →
  let σ :=
    server.HandleRun rt (main.setupServer rt o (Some c) rc pc) r
      (server.Start_exchange (http.NewWriter flusher) now) in
  let refused (code : Z) (message : string) :=
    http.Code (server.Writer σ) = Some code ∧
    http.Written (server.Writer σ) =
      [http.DError {| api.Message := message; api.Code := "" |}] ∧
    server.Clock σ = now in
  let seriesData := api.Input req !! "seriesData" in
  (seriesData = None →
   refused 400
     "Parameter validation failed: required parameter missing: seriesData") ∧
  (∀ v, seriesData = Some v → as_object v = None →
   refused 400
     "Parameter validation failed: parameter seriesData must be an object") ∧
  (seriesData = Some (VObject ∅) →
   refused 500 "missing or invalid 'seriesData' parameter") ∧
  (∀ data before field after,
     seriesData = Some (VObject data) →
     ["tvdbId"; "title"; "qualityProfileId"; "rootFolderPath"] =
       before ++ field :: after →
     (∀ f, f ∈ before → is_Some (data !! f)) → data !! field = None →
     data ≠ ∅ →
     refused 500
       ("failed to add series to Sonarr: " +:+
        "missing required field for adding series: " +:+ field)).
Proof.
  intros Hm Hb Hn σ refused seriesData. subst σ refused seriesData.
  destruct (setupServer_sonarr rt o c rc pc) as (_ & _ & Hh & description & Hg).
  set (s := main.setupServer rt o (Some c) rc pc) in *.
  assert (Hd : dispatched s r req (arr.SonarrAddSeriesHandler o (Some c))).
  { split_and!; [done..|by rewrite Hn|by rewrite Hn]. }
  rewrite (HandleRun_one_parameter s r req _ "seriesData"
             (main.object_parameter description) _ Hd)
    by (unfold schema_of; by rewrite Hn, Hg).
  rewrite validate_object. split_and!.
  - by intros ->.
  - intros v -> Hv. by rewrite Hv.
  - intros Hq. rewrite Hq. cbn [as_object]. cbn zeta.
    unfold server.call. cbn [snd].
    set (ret := api.HandleRequest _ req).
    assert (Hret : ret =
      arr.failed "missing or invalid 'seriesData' parameter" 0).
    { subst ret. unfold arr.SonarrAddSeriesHandler, arr.add_handler.
      cbn [api.HandleRequest]. by rewrite Hq. }
    rewrite Hret. cbn. split_and!; [done..|lia].
  - intros data before field after Hq E Hbefore Hmiss Hne.
    rewrite Hq. cbn [as_object]. cbn zeta.
    unfold server.call. cbn [snd].
    set (ret := api.HandleRequest _ req).
    assert (Hret : ret =
      arr.failed ("failed to add series to Sonarr: " +:+
                  "missing required field for adding series: " +:+ field) 0).
    { subst ret. unfold arr.SonarrAddSeriesHandler, arr.add_handler.
      cbn [api.HandleRequest]. rewrite Hq. cbn [mbind option_bind as_object].
      assert ((size data =? 0)%nat = false) as ->.
      { apply Nat.eqb_neq. by rewrite map_size_empty_iff. }
      unfold arr.SonarrClient.AddSeries, arr.add.
      assert (arr.first_missing
                ["tvdbId"; "title"; "qualityProfileId"; "rootFolderPath"] data
              = Some field) as ->; [|done].
      apply first_missing_Some. by exists before, after. }
    rewrite Hret. cbn. split_and!; [done..|lia].
Qed.

End Tools.

(* ===================================================================== *)
(** ** The logger *)
(* ===================================================================== *)

Section Logger.
Context (ToLower : string → string).
Implicit Types (l : logger.Logger) (calls : list LoggerCall).

Lemma stringToLevel_range name lvl :
  logger.stringToLevel !! name = Some lvl →
  logger.Debug ≤ lvl ≤ logger.Error.
Proof.
  unfold logger.stringToLevel.
  rewrite !lookup_insert_Some, lookup_singleton_Some.
  unfold logger.Debug, logger.Info, logger.Warn, logger.Error.
  intros [[_ <-]|[_ [[_ <-]|[_ [[_ <-]|[_ [_ <-]]]]]]]; lia.
Qed.

(** X21.  Whatever calls are made on it, a logger keeps the prefix it was
    made with and a level between Debug and Error.  Hence an entry at the
    level Error is always written, in the form "<time> [ERROR] <prefix>:
    <message>" with a line feed, and no setting of the level can silence
    it; an entry below the logger's level leaves the logger as it is. *)
Theorem X21_logger_levels lvl0 pfx calls :
  let l := logged ToLower lvl0 pfx calls in
  logger.Debug ≤ logger.level l ≤ logger.Error ∧
  logger.prefix l = pfx ∧
  (∀ timestamp message,
     logger.writer (logger.log logger.Error timestamp message l) =
     logger.writer l ++
       [timestamp +:+ " [ERROR] " +:+ pfx +:+ ": " +:+ message +:+
        logger.newline]) ∧
  (∀ lvl timestamp message, lvl < logger.level l →
     logger.log lvl timestamp message l = l).
Proof.
  intros l.
  assert (Hinv : logger.Debug ≤ logger.level l ≤ logger.Error ∧
                 logger.prefix l = pfx).
  { subst l. unfold logged.
    induction calls as [|c calls' IH] using rev_ind.
    - simpl. split; [|done].
      destruct (logger.stringToLevel !! ToLower lvl0) as [lvl|] eqn:E; simpl.
      + by eapply stringToLevel_range.
      + unfold logger.Debug, logger.Info, logger.Error. lia.
    - rewrite foldl_app. simpl. destruct IH as [IH1 IH2].
      destruct c as [lvl|w|lvl timestamp message]; simpl.
      + unfold logger.SetLevel.
        destruct (logger.stringToLevel !! ToLower lvl) as [lvl'|] eqn:E;
          simpl; [|done].
        split; [|done]. by eapply stringToLevel_range.
      + done.
      + unfold logger.log. by destruct (_ <? _). }
  destruct Hinv as [Hlevel Hprefix].
  split; [done|]. split; [done|]. split.
  - intros timestamp message. unfold logger.log.
    destruct (Z.ltb_spec logger.Error (logger.level l)); [lia|].
    simpl. by rewrite Hprefix.
  - intros lvl timestamp message Hlt. unfold logger.log.
    by destruct (Z.ltb_spec lvl (logger.level l)); [|lia].
Qed.

(** X22.  A log level that [validateConfig] accepts is one the logger
    knows: given that [strings.ToLower] leaves the four lower-case names
    as they are, [SetLevel] with the configured level sets the logger to
    the level of that name and never ignores it.  A name the logger does
    not know after lowering is ignored by [SetLevel], and [New] falls back
    to Info for it. *)
Theorem X22_configured_level config l :
  (∀ name, name ∈ ["debug"; "info"; "warn"; "error"] → ToLower name = name) →
  (main.validateConfig config = None →
   logger.stringToLevel !! main.LogLevel config =
     Some (logger.level (logger.SetLevel ToLower (main.LogLevel config) l))) ∧
  (∀ name pfx, logger.stringToLevel !! ToLower name = None →
     logger.SetLevel ToLower name l = l ∧
     logger.level (logger.New ToLower name pfx) = logger.Info).
Proof.
  intros Hlower. split.
  - intros Hvalid. unfold main.validateConfig in Hvalid.
    destruct (main.is_empty _); [done|]. destruct (_ || _); [done|].
    destruct (negb _) eqn:Hlvl; [done|]. clear Hvalid.
    apply negb_false_iff, validLevels_lookup in Hlvl.
    unfold logger.SetLevel. rewrite (Hlower _ Hlvl).
    rewrite !elem_of_cons, elem_of_nil in Hlvl.
    destruct Hlvl as [->|[->|[->|[->|[]]]]]; reflexivity.
  - intros name pfx Hnone. unfold logger.SetLevel, logger.New.
    by rewrite Hnone.
Qed.

End Logger.

(* ===================================================================== *)
(** ** Instances *)
(* ===================================================================== *)

(** A malformed body sent to the echo server. *)
Lemma X2_witness :
  http.Written
    (server.Writer
       (server.HandleRun runtime_fwd echo_server
          {| http.Method := "POST"; http.Body := http.BodyMalformed;
             http.Ctx := {| http.Deadline := None |} |}
          (server.Start_exchange (http.NewWriter true) 0))) =
  [http.DError {| api.Message := "Invalid request format"; api.Code := "" |}].
Proof.
  pose proof (X2_run_malformed runtime_fwd echo_server
                {| http.Method := "POST"; http.Body := http.BodyMalformed;
                   http.Ctx := {| http.Deadline := None |} |}
                true 0 eq_refl) as H.
  cbv zeta in H. destruct H as (_ & H & _).
  exact (proj1 (proj2 (H eq_refl))).
Defined.

(** The echo server has no tool "Nope". *)
Lemma X3_witness :
  http.Written
    (server.Writer
       (server.HandleRun runtime_fwd echo_server
          (post_run (mcp_request "Nope" ∅ 0))
          (server.Start_exchange (http.NewWriter true) 0))) =
  [http.DError {| api.Message := "Unknown tool: Nope"; api.Code := "" |}].
Proof.
  pose proof (X3_run_unknown_tool runtime_fwd
                [SetupTool echo_definition echo_handler]
                (post_run (mcp_request "Nope" ∅ 0)) (mcp_request "Nope" ∅ 0)
                true 0 eq_refl eq_refl) as H.
  cbv zeta in H.
  assert (Hn : api.ToolName (mcp_request "Nope" ∅ 0) ≠ "") by done.
  destruct (H Hn) as [Hto _].
  exact (proj1 (proj2 (Hto eq_refl))).
Defined.

(** "Echo" without its required "msg". *)
Lemma X4_witness :
  http.Written
    (server.Writer
       (server.HandleRun runtime_fwd echo_server
          (post_run (mcp_request "Echo" ∅ 0))
          (server.Start_exchange (http.NewWriter true) 0))) =
  [http.DError
     {| api.Message :=
          "Parameter validation failed: required parameter missing: msg";
        api.Code := "" |}].
Proof.
  assert (Hd : dispatched echo_server (post_run (mcp_request "Echo" ∅ 0))
                 (mcp_request "Echo" ∅ 0) echo_handler).
  { split; [reflexivity|]. split; [reflexivity|]. split; [done|].
    reflexivity. }
  pose proof (X4_run_validated runtime_fwd echo_server
                (post_run (mcp_request "Echo" ∅ 0)) (mcp_request "Echo" ∅ 0)
                echo_handler true 0 Hd) as H.
  cbv zeta in H. destruct H as [H _].
  exact (proj1 (proj2 (H "required parameter missing: msg" eq_refl))).
Defined.

(** The echo server lists its one tool. *)
Lemma X6_witness :
  ∃ tools,
    http.Written
      (server.Writer
         (server.HandleListTools runtime_fwd echo_server get_request
            (server.Start_exchange (http.NewWriter true) 0))) =
    [http.DTools tools] ∧
    length tools = 1%nat.
Proof.
  destruct (X6_list_tools runtime_fwd [SetupTool echo_definition echo_handler]
              get_request true 0 eq_refl)
    as (tools & Hw & _ & _ & _ & _ & Hlen & _).
  exists tools. split; [exact Hw|exact Hlen].
Defined.

(** The checkers "A" and "B" are probed in this order. *)
Lemma X7_witness :
  server.Probed
    (server.HandleServiceHealth checked_server get_request
       (server.Start_exchange (http.NewWriter true) 0)) =
  [checker_A; checker_B].
Proof.
  exact (proj1 (proj2
    (X7_checkers_in_order [SetupChecker checker_A; SetupChecker checker_B]
       get_request true 0 eq_refl))).
Defined.

(** An "items" declaration changes nothing. *)
Lemma X9_witness :
  server.validateParameter runtime_fwd (input_n (VNumber float_5_5)) "n"
    (VObject (<["items" := VObject integer_spec]> integer_spec)) =
  server.validateParameter runtime_fwd (input_n (VNumber float_5_5)) "n"
    (VObject integer_spec).
Proof.
  assert (H1 : "items" ≠ "required") by done.
  assert (H2 : "items" ≠ "type") by done.
  exact (proj1 (X9_only_required_and_type runtime_fwd
                  (input_n (VNumber float_5_5)) "n" integer_spec "items"
                  (VObject integer_spec) H1 H2)).
Defined.

(** A declaration that is a string, and one that requires with the string
    "true". *)
Lemma X10_witness :
  server.validateParameter runtime_fwd ∅ "n" (VString "integer") = None ∧
  server.validateParameter runtime_fwd ∅ "n"
    (VObject {[ "required" := VString "true" ]}) = None.
Proof.
  destruct (X10_lenient_declarations runtime_fwd ∅ "n") as (H1 & H2 & _).
  split.
  - exact (H1 (VString "integer") eq_refl).
  - apply H2; [|reflexivity]. by vm_compute.
Defined.

(** The two runtimes visit [two_required] in opposite orders. *)
Lemma X11_witness :
  is_Some (server.validateParameters runtime_fwd ∅ two_required) ↔
  is_Some (server.validateParameters runtime_bwd ∅ two_required).
Proof.
  exact (proj2 (X11_verdict_order_free runtime_fwd runtime_bwd ∅ two_required
                  (λ _, eq_refl))).
Defined.

(** The configuration with Sonarr alone is accepted. *)
Lemma X14_witness :
  server.serviceCheckers (wired runtime_fwd quiet sonarr_only) ≠ [] ∧
  (2 ≤ size (server.handlers (wired runtime_fwd quiet sonarr_only)))%nat.
Proof.
  pose proof (X14_accepted_config_is_wired runtime_fwd quiet sonarr_only) as H.
  cbv beta iota zeta delta [main.getClients] in H.
  destruct (main.is_empty (main.SonarrURL sonarr_only)) in H;
    exact (proj1 (proj2 H) eq_refl).
Defined.

(** A search for the empty string on the wired Sonarr. *)
Lemma X16_witness :
  http.Written
    (server.Writer
       (server.HandleRun runtime_fwd
          (main.setupServer runtime_fwd quiet (Some sonarr_client) None None)
          (post_run (mcp_request "SonarrSearch" {[ "query" := VString "" ]} 0))
          (server.Start_exchange (http.NewWriter true) 0))) =
  [http.DError {| api.Message := "missing or invalid 'query' parameter";
                  api.Code := "" |}].
Proof.
  pose proof (X16_sonarr_search runtime_fwd quiet sonarr_client None None
                (post_run
                   (mcp_request "SonarrSearch" {[ "query" := VString "" ]} 0))
                (mcp_request "SonarrSearch" {[ "query" := VString "" ]} 0)
                true 0 eq_refl eq_refl eq_refl) as H.
  cbv zeta in H. destruct H as (_ & _ & H & _).
  exact (proj1 (proj2 (H eq_refl))).
Defined.

(** A series with its id alone lacks the title. *)
Lemma X17_witness :
  arr.SonarrClient.AddSeries quiet sonarr_client
    {[ "tvdbId" := VNumber float_5 ]} =
  (Fail "missing required field for adding series: title", 0).
Proof.
  destruct (X17_add_series_and_movie quiet sonarr_client
              {[ "tvdbId" := VNumber float_5 ]}) as (H & _).
  apply (H ["tvdbId"] "title" ["qualityProfileId"; "rootFolderPath"] eq_refl).
  - intros f Hf. apply list_elem_of_singleton in Hf as ->. by eexists.
  - reflexivity.
Defined.

(** Listing the series of a Sonarr that cannot be reached. *)
Lemma X18_witness :
  api.HandleRequest (arr.SonarrListHandler unreachable (Some sonarr_client))
    (mcp_request "SonarrList" ∅ 0) =
  arr.failed
    ("failed to get series from Sonarr: failed to get series from Sonarr: " +:+
     "connection refused") 0.
Proof.
  apply (X18_listing_tools unreachable "/api/v3/series"
           "failed to get series from Sonarr" "series"
           (arr.SonarrListHandler unreachable) sonarr_client
           (mcp_request "SonarrList" ∅ 0)).
  unfold list_tools. apply list_elem_of_here.
Defined.

(** The categories 5.5, "x" and 5: all are accepted, the string is
    passed over and 5.5 becomes 5. *)
Lemma X19_witness :
  server.validateParameter runtime_fwd (api.Input mixed_categories)
    "categories" categories_parameter = None ∧
  arr.categories_of runtime_fwd (api.Input mixed_categories) = [5; 5].
Proof.
  assert (Hl : api.Input mixed_categories !! "categories" =
               Some (VArray [VNumber float_5_5; VString "x"; VNumber float_5]))
    by (vm_compute; reflexivity).
  pose proof (X19_prowlarr_categories runtime_fwd quiet sonarr_client None
                None mixed_categories _ Hl) as H.
  cbv zeta in H. destruct H as (_ & Hv & _ & Hc & _).
  split; [exact Hv|].
  apply Hc. simpl. by repeat constructor.
Defined.

(** An empty "seriesData" on the wired Sonarr. *)
Lemma X20_witness :
  http.Written
    (server.Writer
       (server.HandleRun runtime_fwd
          (main.setupServer runtime_fwd quiet (Some sonarr_client) None None)
          (post_run
             (mcp_request "SonarrAddSeries" {[ "seriesData" := VObject ∅ ]} 0))
          (server.Start_exchange (http.NewWriter true) 0))) =
  [http.DError {| api.Message := "missing or invalid 'seriesData' parameter";
                  api.Code := "" |}].
Proof.
  pose proof (X20_sonarr_add_series runtime_fwd quiet sonarr_client None None
                (post_run
                   (mcp_request "SonarrAddSeries"
                      {[ "seriesData" := VObject ∅ ]} 0))
                (mcp_request "SonarrAddSeries"
                   {[ "seriesData" := VObject ∅ ]} 0)
                true 0 eq_refl eq_refl eq_refl) as H.
  cbv zeta in H. destruct H as (_ & _ & H & _).
  exact (proj1 (proj2 (H eq_refl))).
Defined.

(** A logger made at "ERROR" drops an Info entry. *)
Lemma X21_witness :
  logger.log logger.Info "t" "m" (logged lower "ERROR" "MCP" []) =
  logged lower "ERROR" "MCP" [].
Proof.
  destruct (X21_logger_levels lower "ERROR" "MCP" []) as (_ & _ & _ & H).
  apply H. by vm_compute.
Defined.

(** The level "info" of the configuration with Sonarr alone. *)
Lemma X22_witness :
  logger.stringToLevel !! "info" =
  Some (logger.level
          (logger.SetLevel lower (main.LogLevel sonarr_only)
             (logger.New lower "debug" "MCP"))).
Proof.
  assert (Hl : ∀ name, name ∈ ["debug"; "info"; "warn"; "error"] →
                 lower name = name).
  { intros name. rewrite !elem_of_cons, elem_of_nil.
    intros [->|[->|[->|[->|[]]]]]; reflexivity. }
  destruct (X22_configured_level lower sonarr_only
              (logger.New lower "debug" "MCP") Hl) as [H _].
  exact (H eq_refl).
Defined.
